(** * Amazon Rekognition image-processing platform: model and properties

    Shallow embedding of
    [custom_components/amazon_rekognition/image_processing.py].

    Conventions of the model.
    - A Python [str] is a [string]; a character of the model is a code
      point below 256, and the built-ins [str.lower], [str.strip] and the
      regular-expression class [\w] are given their Unicode meaning on that
      range.
    - A Python [float] that the code only compares, rounds or formats (a
      confidence, the threshold) is the rational number it denotes ([Q]);
      comparison is exact, as it is for finite floats.  [round(x, 1)] and
      the format [.1f] round to the nearest tenth, ties to the even tenth,
      as CPython does on the exact value.
    - A Python [float] on which the code computes (the coordinates of a
      bounding box) is a binary64 number ([PrimFloat.float]); [+] and [*]
      are the IEEE 754 operations, as in Python.
    - A [dict] with string keys is a [gmap string _].
    - Code with effects runs in a state-and-exception monad over an explicit
      world; libraries outside the repository (the AWS client, PIL, the
      clock, the file system) are fields of an environment record. *)

From Stdlib Require Import ZArith QArith String Ascii List Lia DecimalString.
From Stdlib Require Import PrimFloat.
From stdpp Require Import base option gmap strings.
From Equations Require Import Equations.
Import ListNotations.

Set Warnings "-inexact-float".

Local Open Scope string_scope.

(** ** Python built-ins on strings *)

Module PyStr.

Definition code (c : ascii) : N := N_of_ascii c.

Definition between (lo hi : N) (c : ascii) : bool :=
  ((lo <=? code c) && (code c <=? hi))%N.

(** [str.lower] on one code point below 256: A-Z and the Latin-1 capitals
    (U+00C0-U+00DE without the multiplication sign U+00D7) move up by 32.
    On this range [str.lower] maps a character to one character; beyond it
    (U+0130) it need not, and such text is outside the model. *)
Definition lower_char (c : ascii) : ascii :=
  if between 65 90 c || (between 192 222 c && negb (code c =? 215)%N)
  then ascii_of_N (code c + 32)
  else c.

Fixpoint lower (s : string) : string :=
  match s with
  | EmptyString => EmptyString
  | String c r => String (lower_char c) (lower r)
  end.

(** Characters removed by [str.strip()] with no argument. *)
Definition is_space (c : ascii) : bool :=
  between 9 13 c || between 28 32 c || (code c =? 133)%N || (code c =? 160)%N.

Fixpoint lstrip (s : string) : string :=
  match s with
  | EmptyString => EmptyString
  | String c r => if is_space c then lstrip r else s
  end.

Fixpoint rstrip (s : string) : string :=
  match s with
  | EmptyString => EmptyString
  | String c r =>
      match rstrip r with
      | EmptyString => if is_space c then EmptyString else String c EmptyString
      | r' => String c r'
      end
  end.

Definition strip (s : string) : string := rstrip (lstrip s).

(** [s.replace(old, new)] for one-character [old] and [new]. *)
Fixpoint replace_char (old new : ascii) (s : string) : string :=
  match s with
  | EmptyString => EmptyString
  | String c r =>
      String (if Ascii.eqb c old then new else c) (replace_char old new r)
  end.

(** The class [\w] of [re] under the Unicode flag. *)
Definition is_word (c : ascii) : bool :=
  between 48 57 c || between 65 90 c || (code c =? 95)%N || between 97 122 c
  || (code c =? 170)%N || between 178 179 c || (code c =? 181)%N
  || between 185 186 c || between 188 190 c
  || between 192 214 c || between 216 246 c || between 248 255 c.

(** [re.sub("[^...]", "", s)]: delete each character outside the set. *)
Fixpoint re_sub_delete_outside (keep : ascii -> bool) (s : string) : string :=
  match s with
  | EmptyString => EmptyString
  | String c r =>
      if keep c then String c (re_sub_delete_outside keep r)
      else re_sub_delete_outside keep r
  end.

Fixpoint all_chars (p : ascii -> bool) (s : string) : bool :=
  match s with
  | EmptyString => true
  | String c r => p c && all_chars p r
  end.

Definition first_char (s : string) : option ascii :=
  match s with EmptyString => None | String c _ => Some c end.

Fixpoint last_char (s : string) : option ascii :=
  match s with
  | EmptyString => None
  | String c EmptyString => Some c
  | String _ r => last_char r
  end.

(** [str(n)] for an integer. *)
Definition str_of_Z (z : Z) : string :=
  match z with
  | Zneg p => "-" ++ NilZero.string_of_uint (Pos.to_uint p)
  | _ => NilZero.string_of_uint (N.to_uint (Z.to_N z))
  end.

End PyStr.

(** ** Python floats *)

Module PyFloat.

Definition ltb (x y : Q) : bool :=
  (Qnum x * QDen y <? Qnum y * QDen x)%Z.

(** Nearest integer, ties to even. *)
Definition round_half_even (q : Q) : Z :=
  let n := Qnum q in
  let d := Zpos (Qden q) in
  let f := (n / d)%Z in
  match (2 * (n mod d) ?= d)%Z with
  | Lt => f
  | Gt => (f + 1)%Z
  | Eq => if Z.even f then f else (f + 1)%Z
  end.

(** [round(x, ndigits)] for [ndigits >= 0]. *)
Definition round (x : Q) (ndigits : nat) : Q :=
  let scale := Pos.pow 10 (Pos.of_nat ndigits) in
  match ndigits with
  | O => inject_Z (round_half_even x)
  | S _ => round_half_even (x * inject_Z (Zpos scale)) # scale
  end.

(** [f"{x:.1f}"]. *)
Definition format_1f (x : Q) : string :=
  let k := Z.abs (round_half_even (x * 10)) in
  (if ltb x 0 then "-" else "")
    ++ PyStr.str_of_Z (k / 10) ++ "." ++ PyStr.str_of_Z (k mod 10).

(** The binary64 value of a positive integer; exact below 2^53, which
    covers the sizes of an image. *)
Fixpoint float_of_pos (p : positive) : float :=
  match p with
  | xH => 1%float
  | xO q => (2 * float_of_pos q)%float
  | xI q => (2 * float_of_pos q + 1)%float
  end.

(** The conversion of an [int] operand in [float * int]. *)
Definition float_of_int (z : Z) : float :=
  match z with
  | Z0 => 0%float
  | Zpos p => float_of_pos p
  | Zneg p => (- float_of_pos p)%float
  end.

End PyFloat.

(** ** The detection response *)

Record BoundingBox := {
  Left : float;
  Top : float;
  Width : float;
  Height : float
}.

Record Instance := {
  inst_Confidence : Q;
  inst_BoundingBox : BoundingBox
}.

Record Label := {
  Name : string;
  Confidence : Q;
  Instances : list Instance
}.

Record Response := {
  Labels : list Label
}.

(** Values stored in the attribute dictionary of an entity. *)
Inductive attr_value :=
| AFloat (x : Q)
| AStr (s : string)
| AList (l : list string).

(** ** Response parsing *)

Fixpoint get_object_instances_loop
    (labels : list Label) (target : string) (confidence_threshold : Q)
    : list Instance :=
  match labels with
  | [] => []
  | label :: rest =>
      if String.eqb (PyStr.lower (Name label)) (PyStr.lower target)
      then List.filter
             (fun l => PyFloat.ltb confidence_threshold (inst_Confidence l))
             (Instances label)
      else get_object_instances_loop rest target confidence_threshold
  end.

Definition get_object_instances
    (response : Response) (target : string) (confidence_threshold : Q)
    : list Instance :=
  get_object_instances_loop (Labels response) target confidence_threshold.

Definition get_objects_step (d : gmap string attr_value) (label : Label)
    : gmap string attr_value :=
  if (0 <? length (Instances label))%nat
  then <[PyStr.lower (Name label) := AFloat (PyFloat.round (Confidence label) 1)]> d
  else d.

Definition get_objects (response : Response) : gmap string attr_value :=
  foldl get_objects_step ∅ (Labels response).

Definition get_valid_filename (name : string) : string :=
  PyStr.re_sub_delete_outside
    (fun c => Ascii.eqb c "-" || PyStr.is_word c || Ascii.eqb c ".")
    (PyStr.replace_char " " "_" (PyStr.strip name)).

(** ** Exceptions, results and the state-and-exception monad *)

Inductive exn :=
| KeyError
| IndexError
| UnidentifiedImageError
| OSError
| OtherError (cls : string)
| PyException (msg : string).

Inductive result (A : Type) :=
| Return (a : A)
| Raise (e : exn).
Arguments Return {A} a.
Arguments Raise {A} e.

Definition M (S A : Type) : Type := S -> result A * S.

Definition ret {S A} (a : A) : M S A := fun s => (Return a, s).

Definition bind {S A B} (m : M S A) (k : A -> M S B) : M S B :=
  fun s =>
    match m s with
    | (Return a, s') => k a s'
    | (Raise e, s') => (Raise e, s')
    end.

Definition raise {S A} (e : exn) : M S A := fun s => (Raise e, s).

Definition gets {S A} (f : S -> A) : M S A := fun s => (Return (f s), s).

Definition modify {S} (f : S -> S) : M S unit := fun s => (Return tt, f s).

Definition lift_result {S A} (r : result A) : M S A := fun s => (r, s).

Notation "x <- m ;; k" := (bind m (fun x => k))
  (at level 100, m at next level, right associativity).
Notation "m ;;; k" := (bind m (fun _ => k))
  (at level 100, right associativity).

Inductive log_level := DEBUG | INFO | WARNING.

Definition log_record : Type := log_level * string.

(** ** Platform setup *)

Definition DEFAULT_BOTO_RETRIES : Z := 5.
Definition DEFAULT_REGION : string := "us-east-1".
Definition DEFAULT_TARGETS : list string := ["person"].

Record aws_config := {
  region_name : string;
  aws_access_key_id : string;
  aws_secret_access_key : string
}.

Record camera := {
  CONF_ENTITY_ID : string;
  CONF_NAME : option string
}.

(** The validated platform configuration. *)
Record config := {
  CONF_REGION : string;
  CONF_ACCESS_KEY_ID : string;
  CONF_SECRET_ACCESS_KEY : string;
  CONF_TARGETS : list string;
  CONF_SAVE_FILE_FOLDER : option string;
  CONF_SAVE_TIMESTAMPTED_FILE : bool;
  CONF_BOTO_RETRIES : Z;
  ATTR_CONFIDENCE : Q;
  CONF_SOURCE : list camera
}.

(** A client handle returned by [boto3.client]. *)
Definition client : Type := nat.

(** What setup observes of the outside: the [n]-th call of
    [boto3.client("rekognition", **aws_config)] (counting from 0) returns a
    client or raises. *)
Record setup_env := {
  boto3_client : aws_config -> nat -> result client;
  (* split_entity_id of the host framework *)
  split_entity_id : string -> result (list string)
}.

Record setup_state := {
  attempts : nat;          (* calls of boto3.client made so far *)
  slept : Z;               (* seconds spent in time.sleep *)
  setup_log : list log_record
}.

Definition setup_init : setup_state :=
  {| attempts := 0; slept := 0; setup_log := [] |}.

Definition count_attempt (st : setup_state) : setup_state :=
  {| attempts := S (attempts st); slept := slept st; setup_log := setup_log st |}.

Definition setup_logger (lvl : log_level) (msg : string) (st : setup_state)
    : setup_state :=
  {| attempts := attempts st; slept := slept st;
     setup_log := setup_log st ++ [(lvl, msg)] |}.

Definition time_sleep (secs : Z) (st : setup_state) : setup_state :=
  {| attempts := attempts st; slept := (slept st + secs)%Z;
     setup_log := setup_log st |}.

(** How the [while] loop of [setup_platform] is left: normally, with the
    values of [success], [client] and [retries], or by an exception that the
    [except KeyError] clause does not catch. *)
Inductive loop_exit :=
| LoopDone (success : option client) (retries : Z)
| LoopRaised (e : exn).

Definition inspect {A} (a : A) : {b : A | a = b} := exist _ a eq_refl.

Equations? retry_loop (E : setup_env) (aws : aws_config) (max_retries : Z)
    (retries : Z) (st : setup_state) : loop_exit * setup_state
    by wf (Z.to_nat (max_retries + 1 - retries)) lt :=
  retry_loop E aws max_retries retries st
    with inspect (retries <=? max_retries)%Z := {
    | exist _ false _ => (LoopDone None retries, st)
    | exist _ true Hle
        with boto3_client E aws (attempts st) := {
        | Return c => (LoopDone (Some c) retries, count_attempt st)
        | Raise KeyError =>
            retry_loop E aws max_retries (retries + 1)
              (time_sleep 1
                 (setup_logger INFO
                    ("boto3 client failed, retries=" ++ PyStr.str_of_Z retries)
                    (count_attempt st)))
        | Raise e => (LoopRaised e, count_attempt st) } }.
Proof. apply Z.leb_le in Hle. lia. Qed.

(** ** The entity *)

Record ObjectDetection := {
  _client : client;
  _region : string;
  _targets : list string;
  _targets_found : list Z;
  _confidence : Q;
  _save_file_folder : option string;  (* None: not configured; Some d: Path(d) *)
  _save_timestamped_file : bool;
  _camera_entity : string;
  _name : string;
  _state : option Z;
  _last_detection : option string;
  _objects : gmap string attr_value;
  _labels : option (gmap string attr_value)  (* None: attribute not yet set *)
}.

Definition set_targets_found (v : list Z) (o : ObjectDetection) : ObjectDetection :=
  {| _client := _client o; _region := _region o; _targets := _targets o;
     _targets_found := v; _confidence := _confidence o;
     _save_file_folder := _save_file_folder o;
     _save_timestamped_file := _save_timestamped_file o;
     _camera_entity := _camera_entity o; _name := _name o;
     _state := _state o; _last_detection := _last_detection o;
     _objects := _objects o; _labels := _labels o |}.

Definition set_state (v : option Z) (o : ObjectDetection) : ObjectDetection :=
  {| _client := _client o; _region := _region o; _targets := _targets o;
     _targets_found := _targets_found o; _confidence := _confidence o;
     _save_file_folder := _save_file_folder o;
     _save_timestamped_file := _save_timestamped_file o;
     _camera_entity := _camera_entity o; _name := _name o;
     _state := v; _last_detection := _last_detection o;
     _objects := _objects o; _labels := _labels o |}.

Definition set_last_detection (v : option string) (o : ObjectDetection)
    : ObjectDetection :=
  {| _client := _client o; _region := _region o; _targets := _targets o;
     _targets_found := _targets_found o; _confidence := _confidence o;
     _save_file_folder := _save_file_folder o;
     _save_timestamped_file := _save_timestamped_file o;
     _camera_entity := _camera_entity o; _name := _name o;
     _state := _state o; _last_detection := v;
     _objects := _objects o; _labels := _labels o |}.

Definition set_objects (v : gmap string attr_value) (o : ObjectDetection)
    : ObjectDetection :=
  {| _client := _client o; _region := _region o; _targets := _targets o;
     _targets_found := _targets_found o; _confidence := _confidence o;
     _save_file_folder := _save_file_folder o;
     _save_timestamped_file := _save_timestamped_file o;
     _camera_entity := _camera_entity o; _name := _name o;
     _state := _state o; _last_detection := _last_detection o;
     _objects := v; _labels := _labels o |}.

Definition set_labels (v : option (gmap string attr_value)) (o : ObjectDetection)
    : ObjectDetection :=
  {| _client := _client o; _region := _region o; _targets := _targets o;
     _targets_found := _targets_found o; _confidence := _confidence o;
     _save_file_folder := _save_file_folder o;
     _save_timestamped_file := _save_timestamped_file o;
     _camera_entity := _camera_entity o; _name := _name o;
     _state := _state o; _last_detection := _last_detection o;
     _objects := _objects o; _labels := v |}.

(** [l[1]] on the sequence returned by the helper. *)
Definition item_1 (l : list string) : result string :=
  match l with
  | _ :: x :: _ => Return x
  | _ => Raise IndexError
  end.

(** [split_entity_id(camera_entity)[1]]; [split_entity_id] belongs to the
    host framework and is taken as it comes: it returns a sequence or
    raises. *)
Definition entity_name_of (split : string -> result (list string))
    (camera_entity : string) : result string :=
  match split camera_entity with
  | Return l => item_1 l
  | Raise e => Raise e
  end.

(** [ObjectDetection.__init__]. *)
Definition ObjectDetection_init
    (split : string -> result (list string))
    (client_ : client) (region : string) (targets : list string)
    (confidence : Q) (save_file_folder : option string)
    (save_timestamped_file : bool) (camera_entity : string)
    (name : option string) : result ObjectDetection :=
  let mk (n : string) :=
    {| _client := client_; _region := region; _targets := targets;
       _targets_found := repeat 0%Z (length targets);
       _confidence := confidence;
       _save_file_folder := save_file_folder;
       _save_timestamped_file := save_timestamped_file;
       _camera_entity := camera_entity; _name := n;
       _state := None; _last_detection := None;
       _objects := ∅; _labels := None |} in
  match name with
  | Some (String c r) => Return (mk (String c r))
  | _ =>
      match entity_name_of split camera_entity with
      | Return entity_name => Return (mk ("rekognition_" ++ entity_name))
      | Raise e => Raise e
      end
  end.

Fixpoint build_entities (mk : camera -> result ObjectDetection)
    (source : list camera) : result (list ObjectDetection) :=
  match source with
  | [] => Return []
  | cam :: rest =>
      match mk cam with
      | Raise e => Raise e
      | Return ent =>
          match build_entities mk rest with
          | Raise e => Raise e
          | Return ents => Return (ent :: ents)
          end
      end
  end.

(** [setup_platform]; the result is the list handed to [add_devices]. *)
Definition setup_platform (E : setup_env) (cfg : config)
    : M setup_state (list ObjectDetection) :=
  modify (setup_logger DEBUG
            ("boto_retries setting is " ++ PyStr.str_of_Z (CONF_BOTO_RETRIES cfg))) ;;;
  let aws := {| region_name := CONF_REGION cfg;
                aws_access_key_id := CONF_ACCESS_KEY_ID cfg;
                aws_secret_access_key := CONF_SECRET_ACCESS_KEY cfg |} in
  exit <- (fun st => let '(x, st') := retry_loop E aws (CONF_BOTO_RETRIES cfg) 0 st in
                     (Return x, st')) ;;
  match exit with
  | LoopRaised e => raise e
  | LoopDone None retries =>
      raise (PyException
               ("Failed to create boto3 client. Maybe try increasing "
                ++ "the boto_retries setting. Retry counter was "
                ++ PyStr.str_of_Z retries))
  | LoopDone (Some client_) _ =>
      let save_file_folder :=
        match CONF_SAVE_FILE_FOLDER cfg with
        | Some (String c r) => Some (String c r)
        | _ => None
        end in
      let targets := map PyStr.lower (CONF_TARGETS cfg) in
      lift_result
        (build_entities
           (fun cam =>
              ObjectDetection_init (split_entity_id E) client_ (CONF_REGION cfg)
                targets (ATTR_CONFIDENCE cfg) save_file_folder
                (CONF_SAVE_TIMESTAMPTED_FILE cfg)
                (CONF_ENTITY_ID cam) (CONF_NAME cam))
           (CONF_SOURCE cfg))
  end.

(** ** Images, paths, clock *)

(** A rectangle stroked on an image, in pixels, with its caption. *)
Record Drawing := {
  px_left : float;
  px_top : float;
  px_right : float;
  px_bottom : float;
  box_text : string
}.

(** A decoded RGB image together with what has been drawn on it. *)
Record PILImage := {
  width : Z;
  height : Z;
  pixels : list Byte.byte;
  drawn : list Drawing
}.

(** [draw_box(draw, box, img_width, img_height, text)] of the host
    framework ([homeassistant.util.pil]): with [box = (y_min, x_min, y_max,
    x_max)] relative to the image size, it strokes the rectangle from
    [(x_min * img_width, y_min * img_height)] to
    [(x_max * img_width, y_max * img_height)] on the image and writes [text]
    at its corner. *)
Definition draw_box (img : PILImage) (box : float * float * float * float)
    (img_width img_height : Z) (text : string) : PILImage :=
  let '(y_min, x_min, y_max, x_max) := box in
  {| width := width img; height := height img; pixels := pixels img;
     drawn := drawn img ++
       [{| px_left := (x_min * PyFloat.float_of_int img_width)%float;
           px_top := (y_min * PyFloat.float_of_int img_height)%float;
           px_right := (x_max * PyFloat.float_of_int img_width)%float;
           px_bottom := (y_max * PyFloat.float_of_int img_height)%float;
           box_text := text |}] |}.

(** The path [directory / file_name], kept as its two parts. *)
Definition path : Type := string * string.

Definition path_str (p : path) : string := fst p ++ "/" ++ snd p.

Record datetime := {
  year : Z; month : Z; day : Z; hour : Z; minute : Z; second : Z
}.

Definition pad2 (z : Z) : string :=
  if (z <? 10)%Z then "0" ++ PyStr.str_of_Z z else PyStr.str_of_Z z.

(** [strftime(DATETIME_FORMAT)] with [DATETIME_FORMAT = "%Y-%m-%d_%H:%M:%S"]. *)
Definition strftime_DATETIME_FORMAT (t : datetime) : string :=
  PyStr.str_of_Z (year t) ++ "-" ++ pad2 (month t) ++ "-" ++ pad2 (day t)
  ++ "_" ++ pad2 (hour t) ++ ":" ++ pad2 (minute t) ++ ":" ++ pad2 (second t).

(** What one call of [process_image] observes of the outside. *)
Record env := {
  (* self._client.detect_labels(Image={"Bytes": image}) *)
  detect_labels : client -> list Byte.byte -> result Response;
  (* Image.open(io.BytesIO(bytearray(image))).convert("RGB") *)
  Image_open : list Byte.byte -> result PILImage;
  (* dt_util.now() *)
  dt_now : datetime;
  (* whether img.save(path) succeeds *)
  save_ok : path -> bool
}.

Record world := {
  self : ObjectDetection;
  files : gmap path PILImage;
  log : list log_record
}.

Definition on_self (f : ObjectDetection -> ObjectDetection) (w : world) : world :=
  {| self := f (self w); files := files w; log := log w |}.

Definition logger (lvl : log_level) (msg : string) (w : world) : world :=
  {| self := self w; files := files w; log := log w ++ [(lvl, msg)] |}.

(** [img.save(p)]. *)
Definition img_save (E : env) (img : PILImage) (p : path) : M world unit :=
  fun w =>
    if save_ok E p
    then (Return tt, {| self := self w; files := <[p := img]> (files w); log := log w |})
    else (Raise OSError, w).

(** ** The annotator *)

Definition in_list (x : string) (l : list string) : bool :=
  existsb (String.eqb x) l.

Definition draw_instance (object_name : string) (label : Label)
    (img : PILImage) (instance : Instance) : PILImage :=
  let box := inst_BoundingBox instance in
  let '(x, y, w, h) := (Left box, Top box, Width box, Height box) in
  let '(x_max, y_max) := ((x + w)%float, (y + h)%float) in
  let box_label :=
    object_name ++ ": " ++ PyFloat.format_1f (Confidence label) ++ "%" in
  draw_box img (y, x, y_max, x_max) (width img) (height img) box_label.

Definition draw_label (targets : list string) (confidence : Q)
    (img : PILImage) (label : Label) : PILImage :=
  let object_name := PyStr.lower (Name label) in
  if PyFloat.ltb (Confidence label) confidence || negb (in_list object_name targets)
  then img
  else foldl (draw_instance object_name label) img (Instances label).

Definition py_str_option (o : option string) : string :=
  match o with Some s => s | None => "None" end.

Definition save_image (E : env) (image : list Byte.byte) (response : Response)
    (targets : list string) (confidence : Q) (directory : string)
    (camera_entity : string) : M world unit :=
  match Image_open E image with
  | Raise UnidentifiedImageError =>
      modify (logger WARNING "Rekognition unable to process image, bad data")
  | Raise e => raise e
  | Return img0 =>
      let img := foldl (draw_label targets confidence) img0 (Labels response) in
      name <- gets (fun w => _name (self w)) ;;
      let latest_save_path :=
        (directory, PyStr.lower (get_valid_filename name) ++ "_latest.jpg") in
      img_save E img latest_save_path ;;;
      timestamped <- gets (fun w => _save_timestamped_file (self w)) ;;
      if timestamped : bool then
        last_detection <- gets (fun w => _last_detection (self w)) ;;
        let timestamp_save_path :=
          (directory, name ++ "_" ++ py_str_option last_detection ++ ".jpg") in
        img_save E img timestamp_save_path ;;;
        modify (logger INFO ("Rekognition saved file " ++ path_str timestamp_save_path))
      else ret tt
  end.

(** ** Processing an image *)

(** The loop [for i, target in enumerate(self._targets)]; the list assigned
    to has one slot per target, so every index is in range. *)
Definition count_targets (response : Response) (confidence : Q)
    (targets : list string) (targets_found : list Z) : list Z :=
  foldl
    (fun found '(i, target) =>
       <[i := Z.of_nat (length (get_object_instances response target confidence))]>
         found)
    targets_found
    (combine (seq 0 (length targets)) targets).

(** The built-in [sum] on a list of integers. *)
Definition py_sum (l : list Z) : Z := foldl Z.add 0%Z l.

Definition process_image (E : env) (image : list Byte.byte) : M world unit :=
  modify (on_self (set_state None)) ;;;
  modify (on_self (set_labels (Some ∅))) ;;;
  modify (on_self (fun o => set_targets_found (repeat 0%Z (length (_targets o))) o)) ;;;
  client_ <- gets (fun w => _client (self w)) ;;
  response <- lift_result (detect_labels E client_ image) ;;
  modify (on_self (set_objects (get_objects response))) ;;;
  modify (on_self (fun o =>
    set_targets_found
      (count_targets response (_confidence o) (_targets o) (_targets_found o)) o)) ;;;
  modify (on_self (fun o => set_state (Some (py_sum (_targets_found o))) o)) ;;;
  state <- gets (fun w => default 0%Z (_state (self w))) ;;
  (if (0 <? state)%Z
   then modify (on_self (set_last_detection
                           (Some (strftime_DATETIME_FORMAT (dt_now E)))))
   else ret tt) ;;;
  o <- gets self ;;
  match _save_file_folder o with
  | Some directory =>
      if (0 <? state)%Z
      then save_image E image response (_targets o) (_confidence o) directory (_name o)
      else ret tt
  | None => ret tt
  end.

(** The property [state]. *)
Definition state (o : ObjectDetection) : option Z := _state o.

Definition truthy (o : option string) : bool :=
  match o with
  | Some (String _ _) => true
  | _ => false
  end.

(** The property [device_state_attributes]: [attr] is the dictionary
    [self._objects] itself, so the assignments also change the entity. *)
Definition device_state_attributes : M world (gmap string attr_value) :=
  o <- gets self ;;
  let attr := _objects o in
  let attr := <["targets" := AList (_targets o)]> attr in
  let attr :=
    if truthy (_last_detection o)
    then <["last_target_detection" := AStr (py_str_option (_last_detection o))]> attr
    else attr in
  modify (on_self (set_objects attr)) ;;;
  ret attr.

(** * Definitions used in the statements *)

#[local] Instance Qlt_decision (x y : Q) : Decision (x < y)%Q :=
  match Qlt_le_dec x y with
  | left H => left H
  | right H => right (Qle_not_lt _ _ H)
  end.

#[local] Instance Qle_decision (x y : Q) : Decision (x <= y)%Q :=
  match Qlt_le_dec y x with
  | left H => right (Qlt_not_le _ _ H)
  | right H => left H
  end.

Definition name_matches (target : string) (label : Label) : Prop :=
  PyStr.lower (Name label) = PyStr.lower target.

(** Sample data for the examples. *)
Definition sample_instance (c : Q) : Instance :=
  {| inst_Confidence := c;
     inst_BoundingBox :=
       {| Left := 0.1%float; Top := 0.1%float;
          Width := 0.2%float; Height := 0.3%float |} |}.

Definition has_instances (label : Label) : Prop := Instances label <> [].

Definition duplicate_names_response : Response :=
  {| Labels :=
       [ {| Name := "Person"; Confidence := 91.26; Instances := [sample_instance 91] |};
         {| Name := "Human"; Confidence := 77; Instances := [] |};
         {| Name := "PERSON"; Confidence := 98.25; Instances := [sample_instance 98] |} ] |}.

Definition starts_with (p : ascii -> bool) (s : string) : bool :=
  match PyStr.first_char s with Some c => p c | None => false end.

Definition ends_with (p : ascii -> bool) (s : string) : bool :=
  match PyStr.last_char s with Some c => p c | None => false end.

(** The characters that [get_valid_filename] keeps. *)
Definition allowed (c : ascii) : bool :=
  Ascii.eqb c "-" || PyStr.is_word c || Ascii.eqb c ".".

Definition space_to_underscore (c : ascii) : ascii :=
  if Ascii.eqb c " " then "_"%char else c.

Ltac step_model :=
  cbn -[py_sum count_targets get_objects strftime_DATETIME_FORMAT save_image
        get_valid_filename PyStr.lower append].

Ltac run_monad :=
  unfold bind, modify, gets, ret, raise, lift_result, on_self; step_model.

Ltac unfold_setters :=
  unfold set_last_detection, set_state, set_targets_found, set_objects,
    set_labels; step_model.

(** The total that [process_image] stores as state for a response. *)
Definition total_found (o : ObjectDetection) (response : Response) : Z :=
  py_sum (count_targets response (_confidence o) (_targets o)
            (repeat 0%Z (length (_targets o)))).

(** The entity once the response has been parsed and the timestamp taken. *)
Definition after_detection (E : env) (response : Response) (o : ObjectDetection)
    : ObjectDetection :=
  {| _client := _client o; _region := _region o; _targets := _targets o;
     _targets_found :=
       count_targets response (_confidence o) (_targets o)
         (repeat 0%Z (length (_targets o)));
     _confidence := _confidence o;
     _save_file_folder := _save_file_folder o;
     _save_timestamped_file := _save_timestamped_file o;
     _camera_entity := _camera_entity o; _name := _name o;
     _state := Some (total_found o response);
     _last_detection :=
       if (0 <? total_found o response)%Z
       then Some (strftime_DATETIME_FORMAT (dt_now E))
       else _last_detection o;
     _objects := get_objects response; _labels := Some ∅ |}.

(** The entity when [detect_labels] has raised. *)
Definition after_reset (o : ObjectDetection) : ObjectDetection :=
  set_targets_found (repeat 0%Z (length (_targets o)))
    (set_labels (Some ∅) (set_state None o)).

Definition person_response : Response :=
  {| Labels :=
       [ {| Name := "Person"; Confidence := 98.2;
            Instances :=
              [ {| inst_Confidence := 98.2;
                   inst_BoundingBox :=
                     {| Left := 0.1%float; Top := 0.1%float;
                        Width := 0.2%float; Height := 0.3%float |} |} ]
         |} ] |}.

Definition sample_entity (name : string) (folder : option string)
    (timestamped : bool) : ObjectDetection :=
  {| _client := 0%nat; _region := DEFAULT_REGION; _targets := DEFAULT_TARGETS;
     _targets_found := [0%Z]; _confidence := 80;
     _save_file_folder := folder; _save_timestamped_file := timestamped;
     _camera_entity := "camera.front"; _name := name;
     _state := None; _last_detection := None;
     _objects := ∅; _labels := None |}.

(** The start of a JPEG file, cut short. *)
Definition truncated_jpeg : list Byte.byte :=
  [Byte.xff; Byte.xd8; Byte.xff; Byte.xe0; Byte.x00; Byte.x10].

Definition sample_world (o : ObjectDetection) : world :=
  {| self := o; files := ∅; log := [] |}.

Definition sample_image : PILImage :=
  {| width := 640; height := 480; pixels := []; drawn := [] |}.

Definition sample_now : datetime :=
  {| year := 2020; month := 3; day := 7; hour := 9; minute := 5; second := 30 |}.

Definition sample_env (answer : result Response) (decoded : result PILImage) : env :=
  {| detect_labels := fun _ _ => answer;
     Image_open := fun _ => decoded;
     dt_now := sample_now;
     save_ok := fun _ => true |}.

Definition aws_of (cfg : config) : aws_config :=
  {| region_name := CONF_REGION cfg;
     aws_access_key_id := CONF_ACCESS_KEY_ID cfg;
     aws_secret_access_key := CONF_SECRET_ACCESS_KEY cfg |}.

Definition failed_message (retries : Z) : string :=
  "Failed to create boto3 client. Maybe try increasing "
  ++ "the boto_retries setting. Retry counter was " ++ PyStr.str_of_Z retries.

Definition sample_config (retries : Z) : config :=
  {| CONF_REGION := DEFAULT_REGION;
     CONF_ACCESS_KEY_ID := "AKIA";
     CONF_SECRET_ACCESS_KEY := "secret";
     CONF_TARGETS := DEFAULT_TARGETS;
     CONF_SAVE_FILE_FOLDER := None;
     CONF_SAVE_TIMESTAMPTED_FILE := false;
     CONF_BOTO_RETRIES := retries;
     ATTR_CONFIDENCE := 80;
     CONF_SOURCE := [ {| CONF_ENTITY_ID := "camera.front"; CONF_NAME := None |} ] |}.

(** A helper for the examples: [entity_id.split(".", 1)]. *)
Fixpoint split_once (s : string) : list string :=
  match s with
  | EmptyString => [EmptyString]
  | String c r =>
      if Ascii.eqb c "." then [EmptyString; r]
      else match split_once r with
           | x :: rest => String c x :: rest
           | [] => [String c EmptyString]
           end
  end.

Definition sample_split (s : string) : result (list string) :=
  Return (split_once s).

Definition always_raises (e : exn) : setup_env :=
  {| boto3_client := fun _ _ => Raise e; split_entity_id := sample_split |}.

(** The rectangle and caption for one instance of a label, on an image of
    the given size. *)
Definition box_of (img_width img_height : Z) (label : Label) (instance : Instance)
    : Drawing :=
  let b := inst_BoundingBox instance in
  {| px_left := (Left b * PyFloat.float_of_int img_width)%float;
     px_top := (Top b * PyFloat.float_of_int img_height)%float;
     px_right := ((Left b + Width b) * PyFloat.float_of_int img_width)%float;
     px_bottom := ((Top b + Height b) * PyFloat.float_of_int img_height)%float;
     box_text :=
       PyStr.lower (Name label) ++ ": " ++ PyFloat.format_1f (Confidence label)
       ++ "%" |}.

(** A label is annotated when its confidence is at least the threshold and
    its lowercased name is a target. *)
Definition is_annotated (targets : list string) (confidence : Q) (label : Label)
    : Prop :=
  (confidence <= Confidence label)%Q /\ PyStr.lower (Name label) ∈ targets.

Definition boxes_of_label (targets : list string) (confidence : Q)
    (img_width img_height : Z) (label : Label) : list Drawing :=
  if decide (is_annotated targets confidence label)
  then map (box_of img_width img_height label) (Instances label)
  else [].

(** The image that [save_image] saves: the decoded image after the loop over
    the labels. *)
Definition annotated (targets : list string) (confidence : Q)
    (img0 : PILImage) (response : Response) : PILImage :=
  foldl (draw_label targets confidence) img0 (Labels response).

Definition latest_path (directory name : string) : path :=
  (directory, PyStr.lower (get_valid_filename name) ++ "_latest.jpg").

Definition timestamp_path (directory name : string) (last_detection : option string)
    : path :=
  (directory, name ++ "_" ++ py_str_option last_detection ++ ".jpg").

Definition with_files (w : world) (f : gmap path PILImage) : world :=
  {| self := self w; files := f; log := log w |}.

Definition is_digit (c : ascii) : bool := PyStr.between 48 57 c.

Definition digits_b (n : nat) (s : string) : bool :=
  Nat.eqb (String.length s) n && PyStr.all_chars is_digit s.

(** [s] is a numeral of exactly [n] decimal digits. *)
Definition digits (n : nat) (s : string) : Prop := digits_b n s = true.

Record valid_datetime (t : datetime) : Prop := {
  year_range : (1000 <= year t <= 9999)%Z;
  month_range : (1 <= month t <= 12)%Z;
  day_range : (1 <= day t <= 31)%Z;
  hour_range : (0 <= hour t <= 23)%Z;
  minute_range : (0 <= minute t <= 59)%Z;
  second_range : (0 <= second t <= 59)%Z
}.

Definition detected_entity : ObjectDetection :=
  set_last_detection (Some (strftime_DATETIME_FORMAT sample_now))
    (sample_entity "Front Door" (Some "/tmp") true).

(** What the host does with an entity: it has an image processed (an
    exception raised by the call is the host's to handle) or it reads the
    attributes. *)
Inductive call :=
| ProcessImage (E : env) (image : list Byte.byte)
| ReadAttributes.

Definition step (w : world) (c : call) : world :=
  match c with
  | ProcessImage E image => snd (process_image E image w)
  | ReadAttributes => snd (device_state_attributes w)
  end.

Definition run (calls : list call) (w : world) : world := foldl step w calls.

(** The call is a [process_image] whose response gives a positive total for
    the targets and threshold of [o]. *)
Definition detects (o : ObjectDetection) (c : call) : Prop :=
  match c with
  | ProcessImage E image =>
      exists response,
        detect_labels E (_client o) image = Return response
        /\ (0 < total_found o response)%Z
  | ReadAttributes => False
  end.

(** The part of an entity that no method assigns. *)
Definition same_config (o o' : ObjectDetection) : Prop :=
  _client o' = _client o /\ _targets o' = _targets o
  /\ _confidence o' = _confidence o.

Definition fresh_entity : ObjectDetection :=
  {| _client := 0%nat; _region := DEFAULT_REGION; _targets := ["person"];
     _targets_found := [0%Z]; _confidence := 80;
     _save_file_folder := None; _save_timestamped_file := false;
     _camera_entity := "camera.front"; _name := "rekognition_front";
     _state := None; _last_detection := None;
     _objects := ∅; _labels := None |}.

Definition empty_response : Response := {| Labels := [] |}.

Definition sample_calls : list call :=
  [ ProcessImage (sample_env (Return empty_response) (Return sample_image)) [];
    ProcessImage (sample_env (Return person_response) (Return sample_image)) [];
    ReadAttributes;
    ProcessImage (sample_env (Return empty_response) (Return sample_image)) [];
    ProcessImage (sample_env (Raise (OtherError "EndpointConnectionError"))
                    (Return sample_image)) [] ].

(** The number that [process_image] stores for one target. *)
Definition count_for (response : Response) (confidence : Q) (target : string) : Z :=
  Z.of_nat (length (get_object_instances response target confidence)).

Definition with_targets (targets : list string) (o : ObjectDetection)
    : ObjectDetection :=
  {| _client := _client o; _region := _region o; _targets := targets;
     _targets_found := _targets_found o; _confidence := _confidence o;
     _save_file_folder := _save_file_folder o;
     _save_timestamped_file := _save_timestamped_file o;
     _camera_entity := _camera_entity o; _name := _name o;
     _state := _state o; _last_detection := _last_detection o;
     _objects := _objects o; _labels := _labels o |}.

(** The keys that [device_state_attributes] writes itself. *)
Definition reserved_key (k : string) : Prop :=
  k = "targets" \/ k = "last_target_detection".

Definition not_slash (c : ascii) : bool := negb (Ascii.eqb c "/").

(** The state of setup after [k] more calls of [boto3.client] that raised
    [KeyError], the first of them at the counter value [retries]. *)
Fixpoint after_KeyErrors (k : nat) (retries : Z) (st : setup_state) : setup_state :=
  match k with
  | O => st
  | S k' =>
      after_KeyErrors k' (retries + 1)
        (time_sleep 1
           (setup_logger INFO
              ("boto3 client failed, retries=" ++ PyStr.str_of_Z retries)
              (count_attempt st)))
  end.

(** No usable name is configured for the camera. *)
Definition unnamed (cam : camera) : Prop :=
  CONF_NAME cam = None \/ CONF_NAME cam = Some "".

(** What [setup_platform] puts into the entity of a camera. *)
Record configured_for (cfg : config) (c : client) (cam : camera)
    (o : ObjectDetection) : Prop := {
  cf_client : _client o = c;
  cf_region : _region o = CONF_REGION cfg;
  cf_targets : _targets o = map PyStr.lower (CONF_TARGETS cfg);
  cf_lowercase : Forall (fun t => PyStr.lower t = t) (_targets o);
  cf_found : _targets_found o = repeat 0%Z (length (CONF_TARGETS cfg));
  cf_confidence : _confidence o = ATTR_CONFIDENCE cfg;
  cf_timestamped : _save_timestamped_file o = CONF_SAVE_TIMESTAMPTED_FILE cfg;
  cf_camera : _camera_entity o = CONF_ENTITY_ID cam;
  cf_state : _state o = None;
  cf_last : _last_detection o = None;
  cf_objects : _objects o = ∅
}.

(** The state of setup when the loop is entered. *)
Definition setup_start (cfg : config) : setup_state :=
  setup_logger DEBUG
    ("boto_retries setting is " ++ PyStr.str_of_Z (CONF_BOTO_RETRIES cfg))
    setup_init.

(** Constructors that raise [KeyError] a number of times first. *)
Definition flaky_client (failures : nat) : setup_env :=
  {| boto3_client := fun _ n => if (n <? failures)%nat then Raise KeyError
                                else Return 7%nat;
     split_entity_id := sample_split |}.

Definition failing_client (failures : nat) (e : exn) : setup_env :=
  {| boto3_client := fun _ n => if (n <? failures)%nat then Raise KeyError
                                else Raise e;
     split_entity_id := sample_split |}.

(** A positive state comes with a last detection, and no state is negative. *)
Definition state_consistent (o : ObjectDetection) : Prop :=
  match _state o with
  | Some n => (0 <= n)%Z /\ ((0 < n)%Z -> is_Some (_last_detection o))
  | None => True
  end.

(** The fields that only the constructor assigns. *)
Definition configuration (o : ObjectDetection)
    : client * string * list string * Q * option string * bool * string * string :=
  (_client o, _region o, _targets o, _confidence o, _save_file_folder o,
   _save_timestamped_file o, _camera_entity o, _name o).

(** * Properties *)

(** ** Examples of the built-ins *)

Example get_valid_filename_ex :
  get_valid_filename " a b/c*.jpg " = "a_bc.jpg".
Proof. vm_compute. reflexivity. Qed.

Example round_ex :
  PyFloat.round 98.2 1 = 98.2%Q /\ PyFloat.round 0.25 1 = 0.2%Q
  /\ PyFloat.round 0.75 1 = 0.8%Q /\ PyFloat.format_1f 98.25 = "98.2"
  /\ PyFloat.format_1f (-0.04) = "-0.0".
Proof. vm_compute. repeat split; reflexivity. Qed.

(** ** Comparison of floats *)

Lemma ltb_lt (x y : Q) : PyFloat.ltb x y = true <-> (x < y)%Q.
Proof. unfold PyFloat.ltb, Qlt. apply Z.ltb_lt. Qed.

Lemma ltb_ge (x y : Q) : PyFloat.ltb x y = false <-> (y <= x)%Q.
Proof. unfold PyFloat.ltb, Qle. rewrite Z.ltb_ge. reflexivity. Qed.

(** The boolean filter of the source and the filter by a decidable
    proposition select the same elements. *)
Lemma filter_ltb (thr : Q) (l : list Instance) :
  List.filter (fun i => PyFloat.ltb thr (inst_Confidence i)) l
  = filter (fun i => (thr < inst_Confidence i)%Q) l.
Proof.
  induction l as [|i l IH]; [reflexivity|].
  cbn [List.filter]. rewrite filter_cons, IH.
  destruct (PyFloat.ltb thr (inst_Confidence i)) eqn:H.
  - apply ltb_lt in H. rewrite decide_True by exact H. reflexivity.
  - apply ltb_ge in H. rewrite decide_False; [reflexivity|].
    apply Qle_not_lt, H.
Qed.

(** ** Counting instances *)

Lemma loop_skips_non_matching (pre rest : list Label) target thr :
  Forall (fun l => ~ name_matches target l) pre ->
  get_object_instances_loop (pre ++ rest) target thr
  = get_object_instances_loop rest target thr.
Proof.
  induction 1 as [|l pre Hl _ IH]; [reflexivity|].
  cbn [app get_object_instances_loop].
  destruct (String.eqb_spec (PyStr.lower (Name l)) (PyStr.lower target)) as [E|_].
  - contradiction.
  - exact IH.
Qed.

(** C1.  In any response, the instances returned for a target are exactly
    the instances of the first label whose lowercased name equals the
    lowercased target and whose confidence is strictly greater than the
    threshold, so their number is the number of such instances; an instance
    whose confidence equals the threshold is not among them. *)
Theorem get_object_instances_strictly_above
    (pre post : list Label) (label : Label) (target : string) (thr : Q) :
  Forall (fun l => ~ name_matches target l) pre ->
  name_matches target label ->
  let found :=
    get_object_instances {| Labels := pre ++ label :: post |} target thr in
  found = filter (fun i => (thr < inst_Confidence i)%Q) (Instances label)
  /\ length found
     = length (filter (fun i => (thr < inst_Confidence i)%Q) (Instances label))
  /\ (forall i, (inst_Confidence i == thr)%Q -> ~ In i found).
Proof.
  intros Hpre Hm found.
  assert (Hfound :
    found = filter (fun i => (thr < inst_Confidence i)%Q) (Instances label)).
  { subst found. unfold get_object_instances. cbn [Labels].
    rewrite loop_skips_non_matching by exact Hpre.
    cbn [get_object_instances_loop].
    unfold name_matches in Hm. rewrite Hm, String.eqb_refl.
    apply filter_ltb. }
  split; [exact Hfound|]. split; [now rewrite Hfound|].
  intros i Heq Hin. rewrite Hfound in Hin.
  apply list_elem_of_In, list_elem_of_filter in Hin as [Hlt _].
  rewrite Heq in Hlt. exact (Qlt_irrefl _ Hlt).
Qed.

Lemma get_object_instances_strictly_above_witness :
  length
    (get_object_instances
       {| Labels :=
            [ {| Name := "Car"; Confidence := 99; Instances := [sample_instance 99] |} ]
            ++ {| Name := "Person"; Confidence := 98.2;
                  Instances := [sample_instance 98.2; sample_instance 80;
                                sample_instance 50] |}
            :: [] |}
       "PERSON" 80)
  = 1%nat.
Proof.
  refine (eq_trans
    (proj1 (proj2 (get_object_instances_strictly_above
       [ {| Name := "Car"; Confidence := 99; Instances := [sample_instance 99] |} ]
       []
       {| Name := "Person"; Confidence := 98.2;
          Instances := [sample_instance 98.2; sample_instance 80;
                        sample_instance 50] |}
       "PERSON" 80 _ _))) _).
  - constructor; [|constructor]. unfold name_matches. vm_compute. discriminate.
  - vm_compute. reflexivity.
  - vm_compute. reflexivity.
Defined.

(** C2.  When no label of the response has the target's name up to case,
    the function returns the empty list (it is a total function, so nothing
    is raised) and the count taken from it is 0. *)
Theorem get_object_instances_absent
    (response : Response) (target : string) (thr : Q) :
  Forall (fun l => ~ name_matches target l) (Labels response) ->
  get_object_instances response target thr = []
  /\ length (get_object_instances response target thr) = 0%nat.
Proof.
  intros H. unfold get_object_instances.
  rewrite <- (app_nil_r (Labels response)).
  rewrite loop_skips_non_matching by exact H.
  split; reflexivity.
Qed.

Lemma get_object_instances_absent_witness :
  length
    (get_object_instances
       {| Labels := [ {| Name := "Car"; Confidence := 99;
                         Instances := [sample_instance 99] |} ] |}
       "Person" 0)
  = 0%nat.
Proof.
  refine (proj2 (get_object_instances_absent _ "Person" 0 _)).
  constructor; [|constructor]. unfold name_matches. vm_compute. discriminate.
Defined.

(** ** Rounding *)

Lemma round_half_even_nearest (q : Q) :
  let k := PyFloat.round_half_even q in
  (2 * Qnum q - Zpos (Qden q) <= 2 * k * Zpos (Qden q)
   <= 2 * Qnum q + Zpos (Qden q))%Z.
Proof.
  unfold PyFloat.round_half_even.
  destruct q as [n d]. cbn [Qnum Qden].
  pose proof (Z.div_mod n (Zpos d) ltac:(lia)) as Hdm.
  pose proof (Z.mod_pos_bound n (Zpos d) ltac:(lia)) as Hb.
  destruct (Z.compare_spec (2 * (n mod Zpos d)) (Zpos d)) as [He|Hl|Hg];
    [destruct (Z.even (n / Zpos d))| |]; cbv zeta; nia.
Qed.

(** [round(x, 1)] is a whole number of tenths, at distance at most one
    twentieth from [x]. *)
Lemma round_1_nearest_tenth (x : Q) :
  exists k : Z,
    PyFloat.round x 1 = k # 10
    /\ (x - (1 # 20) <= k # 10)%Q /\ (k # 10 <= x + (1 # 20))%Q.
Proof.
  exists (PyFloat.round_half_even (x * inject_Z 10)).
  split; [reflexivity|].
  pose proof (round_half_even_nearest (x * inject_Z 10)) as H.
  cbv zeta in H. destruct x as [n d].
  set (k := PyFloat.round_half_even _) in *.
  cbn in H. unfold Qle, Qminus, Qplus, Qopp. cbn.
  rewrite ?Pos2Z.inj_mul. split; nia.
Qed.

(** ** Detected objects *)

Lemma get_objects_step_spec (d : gmap string attr_value) (label : Label) :
  (has_instances label ->
   get_objects_step d label
   = <[PyStr.lower (Name label) := AFloat (PyFloat.round (Confidence label) 1)]> d)
  /\ (~ has_instances label -> get_objects_step d label = d).
Proof.
  unfold get_objects_step, has_instances.
  destruct (Instances label); cbn; split; intros H;
    first [reflexivity | contradiction H; congruence | contradiction].
Qed.

Lemma get_objects_snoc (labels : list Label) (label : Label) :
  get_objects {| Labels := labels ++ [label] |}
  = get_objects_step (get_objects {| Labels := labels |}) label.
Proof. unfold get_objects. cbn [Labels]. apply foldl_snoc. Qed.

Lemma get_objects_keys (labels : list Label) (k : string) :
  is_Some (get_objects {| Labels := labels |} !! k)
  <-> exists label, In label labels /\ has_instances label
                    /\ PyStr.lower (Name label) = k.
Proof.
  induction labels as [|label labels IH] using rev_ind.
  - unfold get_objects. cbn. rewrite lookup_empty. split.
    + intros [? H]. discriminate.
    + intros (? & [] & _).
  - rewrite get_objects_snoc.
    destruct (get_objects_step_spec (get_objects {| Labels := labels |}) label)
      as [Hyes Hno].
    destruct (decide (has_instances label)) as [Hi|Hi].
    + rewrite (Hyes Hi), lookup_insert_is_Some', IH. split.
      * intros [<- | (l & Hl & Hli & Hk)].
        -- exists label. rewrite in_app_iff. cbn. auto.
        -- exists l. rewrite in_app_iff. auto.
      * intros (l & Hl & Hli & Hk). apply in_app_iff in Hl as [Hl | [-> | []]].
        -- right. eauto.
        -- left. exact Hk.
    + rewrite (Hno Hi), IH. split.
      * intros (l & Hl & Hli & Hk). exists l. rewrite in_app_iff. auto.
      * intros (l & Hl & Hli & Hk). apply in_app_iff in Hl as [Hl | [-> | []]].
        -- eauto.
        -- contradiction.
Qed.

Lemma get_objects_last_wins (pre post : list Label) (label : Label) :
  has_instances label ->
  (forall l, In l post -> has_instances l ->
             PyStr.lower (Name l) <> PyStr.lower (Name label)) ->
  get_objects {| Labels := pre ++ label :: post |} !! PyStr.lower (Name label)
  = Some (AFloat (PyFloat.round (Confidence label) 1)).
Proof.
  intros Hi. induction post as [|l post IH] using rev_ind; intros Hpost.
  - rewrite get_objects_snoc.
    rewrite (proj1 (get_objects_step_spec _ label) Hi).
    apply lookup_insert_eq.
  - replace (pre ++ label :: post ++ [l])%list
      with ((pre ++ label :: post) ++ [l])%list
      by (rewrite <- app_assoc; reflexivity).
    rewrite get_objects_snoc.
    assert (IH' := IH (fun l' Hl' => Hpost l' (proj2 (in_app_iff _ _ _) (or_introl Hl')))).
    destruct (get_objects_step_spec
                (get_objects {| Labels := pre ++ label :: post |}) l) as [Hyes Hno].
    destruct (decide (has_instances l)) as [Hl|Hl].
    + rewrite (Hyes Hl), lookup_insert_ne; [exact IH'|].
      apply Hpost; [|exact Hl]. apply in_app_iff. cbn. auto.
    + rewrite (Hno Hl). exact IH'.
Qed.

(** C3.  The dictionary returned by [get_objects] has a key exactly for the
    lowercased names of the labels with at least one instance; under the
    lowercased name of such a label it holds the confidence of the last
    label with instances that has this lowercased name, rounded to one
    decimal place (a whole number of tenths nearest to the confidence). *)
Theorem get_objects_spec (response : Response) :
  (forall k,
     is_Some (get_objects response !! k)
     <-> exists label, In label (Labels response) /\ has_instances label
                       /\ PyStr.lower (Name label) = k)
  /\ (forall pre label post,
        Labels response = (pre ++ label :: post)%list ->
        has_instances label ->
        (forall l, In l post -> has_instances l ->
                   PyStr.lower (Name l) <> PyStr.lower (Name label)) ->
        get_objects response !! PyStr.lower (Name label)
        = Some (AFloat (PyFloat.round (Confidence label) 1))
        /\ exists k : Z,
             PyFloat.round (Confidence label) 1 = k # 10
             /\ (Confidence label - (1 # 20) <= k # 10)%Q
             /\ (k # 10 <= Confidence label + (1 # 20))%Q).
Proof.
  destruct response as [labels]. cbn [Labels]. split.
  - intros k. apply get_objects_keys.
  - intros pre label post -> Hi Hpost. split.
    + apply get_objects_last_wins; assumption.
    + apply round_1_nearest_tenth.
Qed.

Lemma get_objects_spec_witness :
  get_objects duplicate_names_response !! "person" = Some (AFloat 98.2)
  /\ get_objects duplicate_names_response !! "human" = None.
Proof.
  split.
  - refine (proj1 (proj2 (get_objects_spec duplicate_names_response)
      [ {| Name := "Person"; Confidence := 91.26; Instances := [sample_instance 91] |};
        {| Name := "Human"; Confidence := 77; Instances := [] |} ]
      {| Name := "PERSON"; Confidence := 98.25; Instances := [sample_instance 98] |}
      [] eq_refl _ _)).
    + unfold has_instances. cbn. discriminate.
    + intros l [].
  - vm_compute. reflexivity.
Defined.

(** ** File names *)

Lemma lstrip_spec (s : string) :
  exists ws, s = ws ++ PyStr.lstrip s
             /\ PyStr.all_chars PyStr.is_space ws = true
             /\ starts_with PyStr.is_space (PyStr.lstrip s) = false.
Proof.
  induction s as [|c s (ws & Heq & Hws & Hst)].
  - exists "". repeat split.
  - cbn [PyStr.lstrip]. destruct (PyStr.is_space c) eqn:Hc.
    + exists (String c ws). split; [|split].
      * change (String c ws ++ PyStr.lstrip s) with (String c (ws ++ PyStr.lstrip s)).
        congruence.
      * cbn [PyStr.all_chars]. rewrite Hc, Hws. reflexivity.
      * exact Hst.
    + exists "". split; [reflexivity|]. split; [reflexivity|].
      unfold starts_with. cbn [PyStr.first_char]. exact Hc.
Qed.

Lemma rstrip_spec (s : string) :
  exists ws, s = PyStr.rstrip s ++ ws
             /\ PyStr.all_chars PyStr.is_space ws = true
             /\ ends_with PyStr.is_space (PyStr.rstrip s) = false
             /\ (starts_with PyStr.is_space s = false ->
                 starts_with PyStr.is_space (PyStr.rstrip s) = false).
Proof.
  induction s as [|c s (ws & Heq & Hws & Hend & _)].
  - exists "". repeat split.
  - cbn [PyStr.rstrip]. destruct (PyStr.rstrip s) as [|c' r'] eqn:Hr.
    + change ("" ++ ws) with ws in Heq. subst ws.
      destruct (PyStr.is_space c) eqn:Hc.
      * exists (String c s). split; [reflexivity|]. split; [|split].
        -- cbn [PyStr.all_chars]. rewrite Hc, Hws. reflexivity.
        -- reflexivity.
        -- unfold starts_with. cbn [PyStr.first_char]. congruence.
      * exists s. split; [reflexivity|]. split; [exact Hws|].
        unfold ends_with, starts_with. cbn [PyStr.last_char PyStr.first_char].
        split; [exact Hc | intros _; exact Hc].
    + exists ws. split; [|split; [exact Hws|split]].
      * change (String c (String c' r') ++ ws) with (String c (String c' r' ++ ws)).
        congruence.
      * unfold ends_with in *. cbn [PyStr.last_char] in *. exact Hend.
      * unfold starts_with. cbn [PyStr.first_char]. intros H; exact H.
Qed.

Lemma re_sub_delete_outside_filter (keep : ascii -> bool) (s : string) :
  PyStr.re_sub_delete_outside keep s
  = string_of_list_ascii (List.filter keep (list_ascii_of_string s)).
Proof.
  induction s as [|c s IH]; [reflexivity|].
  cbn. destruct (keep c); cbn; rewrite IH; reflexivity.
Qed.

Lemma replace_char_map (s : string) :
  list_ascii_of_string (PyStr.replace_char " " "_" s)
  = map space_to_underscore (list_ascii_of_string s).
Proof.
  induction s as [|c s IH]; [reflexivity|].
  cbn. rewrite IH. reflexivity.
Qed.

Lemma re_sub_delete_outside_all (keep : ascii -> bool) (s : string) :
  PyStr.all_chars keep (PyStr.re_sub_delete_outside keep s) = true.
Proof.
  induction s as [|c s IH]; [reflexivity|].
  cbn. destruct (keep c) eqn:Hc; [cbn; rewrite Hc|]; exact IH.
Qed.

(** C4.  [get_valid_filename] works on the input without its leading and
    trailing whitespace (the input is whitespace, then the stripped text,
    then whitespace, and the stripped text neither starts nor ends with
    whitespace); in it every space becomes an underscore, and then every
    character other than a word character, a hyphen or a period is dropped;
    so the result has only such characters, and the text [" a b/c*.jpg "]
    gives ["a_bc.jpg"]. *)
Theorem get_valid_filename_spec (name : string) :
  (exists ws1 ws2,
     name = ws1 ++ PyStr.strip name ++ ws2
     /\ PyStr.all_chars PyStr.is_space ws1 = true
     /\ PyStr.all_chars PyStr.is_space ws2 = true
     /\ starts_with PyStr.is_space (PyStr.strip name) = false
     /\ ends_with PyStr.is_space (PyStr.strip name) = false)
  /\ get_valid_filename name
     = string_of_list_ascii
         (List.filter allowed
            (map space_to_underscore (list_ascii_of_string (PyStr.strip name))))
  /\ PyStr.all_chars allowed (get_valid_filename name) = true
  /\ get_valid_filename " a b/c*.jpg " = "a_bc.jpg".
Proof.
  split; [|split; [|split]].
  - destruct (lstrip_spec name) as (ws1 & H1 & Hws1 & Hst).
    destruct (rstrip_spec (PyStr.lstrip name)) as (ws2 & H2 & Hws2 & Hend & Hkeep).
    exists ws1, ws2. unfold PyStr.strip. rewrite <- H2.
    repeat split; auto.
  - unfold get_valid_filename.
    rewrite re_sub_delete_outside_filter, replace_char_map. reflexivity.
  - apply re_sub_delete_outside_all.
  - vm_compute. reflexivity.
Qed.

(** ** Processing an image: the steps of [process_image] *)

Lemma process_image_detected (E : env) (image : list Byte.byte) (w : world)
    (response : Response) :
  detect_labels E (_client (self w)) image = Return response ->
  let o := after_detection E response (self w) in
  let w1 := {| self := o; files := files w; log := log w |} in
  process_image E image w
  = match _save_file_folder o with
    | Some directory =>
        if (0 <? total_found (self w) response)%Z
        then save_image E image response (_targets o) (_confidence o)
               directory (_name o) w1
        else (Return tt, w1)
    | None => (Return tt, w1)
    end.
Proof.
  intros H. unfold process_image. run_monad. rewrite H. unfold_setters.
  unfold after_detection. fold (total_found (self w) response).
  destruct (0 <? total_found (self w) response)%Z eqn:Hpos; step_model;
    destruct (_save_file_folder (self w)); reflexivity.
Qed.

Lemma process_image_raised (E : env) (image : list Byte.byte) (w : world) (e : exn) :
  detect_labels E (_client (self w)) image = Raise e ->
  process_image E image w
  = (Raise e, {| self := after_reset (self w); files := files w; log := log w |}).
Proof.
  intros H. unfold process_image. run_monad. rewrite H. reflexivity.
Qed.

Lemma img_save_self (E : env) (img : PILImage) (p : path) (w : world) :
  self (snd (img_save E img p w)) = self w.
Proof. unfold img_save. destruct (save_ok E p); reflexivity. Qed.

(** [save_image] only reads the entity. *)
Lemma save_image_self (E : env) image response targets confidence directory
    camera_entity (w : world) :
  self (snd (save_image E image response targets confidence directory
               camera_entity w))
  = self w.
Proof.
  unfold save_image.
  destruct (Image_open E image) as [img0|[]]; try reflexivity.
  run_monad. unfold img_save.
  destruct (save_ok E _); [|reflexivity]. cbn.
  destruct (_save_timestamped_file (self w)); [|reflexivity]. cbn.
  destruct (save_ok E _); reflexivity.
Qed.

Lemma process_image_self_detected (E : env) (image : list Byte.byte) (w : world)
    (response : Response) :
  detect_labels E (_client (self w)) image = Return response ->
  self (snd (process_image E image w)) = after_detection E response (self w).
Proof.
  intros H. rewrite (process_image_detected E image w response H). cbv zeta.
  destruct (_save_file_folder _); [|reflexivity].
  destruct (0 <? _)%Z; [|reflexivity].
  apply save_image_self.
Qed.

(** With a save folder and a positive total, [process_image] ends in
    [save_image], which then finds the time of this call as last detection. *)
Lemma process_image_saves_with_timestamp (E : env) (image : list Byte.byte)
    (w : world) (response : Response) (directory : string) :
  detect_labels E (_client (self w)) image = Return response ->
  (0 < total_found (self w) response)%Z ->
  _save_file_folder (self w) = Some directory ->
  let w1 := {| self := after_detection E response (self w);
               files := files w; log := log w |} in
  process_image E image w
  = save_image E image response (_targets (self w)) (_confidence (self w))
      directory (_name (self w)) w1
  /\ _last_detection (self w1) = Some (strftime_DATETIME_FORMAT (dt_now E)).
Proof.
  intros Hd Hpos Hdir w1.
  rewrite (process_image_detected E image w response Hd). cbv zeta.
  apply Z.ltb_lt in Hpos.
  cbn [after_detection _save_file_folder _targets _confidence _name
       _last_detection self w1].
  rewrite Hdir, Hpos. split; reflexivity.
Qed.

(** ** The end-to-end example *)

(** C5.  For an entity with target list [["person"]] and threshold 80, when
    the service answers with the single label Person (confidence 98.2, one
    instance of confidence 98.2), [process_image] leaves the state 1, and
    the attributes read afterwards map "person" to 98.2 and "targets" to
    [["person"]]. *)
Theorem process_image_person_example
    (E : env) (image : list Byte.byte) (w : world) :
  _targets (self w) = ["person"] ->
  _confidence (self w) = 80%Q ->
  detect_labels E (_client (self w)) image = Return person_response ->
  let w1 := snd (process_image E image w) in
  state (self w1) = Some 1%Z
  /\ exists attr w2,
       device_state_attributes w1 = (Return attr, w2)
       /\ attr !! "person" = Some (AFloat 98.2)
       /\ attr !! "targets" = Some (AList ["person"]).
Proof.
  intros Ht Hc Hd w1.
  assert (Hself : self w1 = after_detection E person_response (self w)).
  { apply process_image_self_detected, Hd. }
  split.
  - unfold state. rewrite Hself. cbn [after_detection _state].
    unfold total_found. rewrite Ht, Hc. vm_compute. reflexivity.
  - unfold device_state_attributes. run_monad. rewrite Hself.
    cbn [after_detection _objects _targets _last_detection].
    eexists _, _. split; [reflexivity|]. rewrite Ht.
    destruct (truthy _).
    + rewrite !(lookup_insert_ne _ "last_target_detection") by done.
      rewrite lookup_insert_ne by done.
      rewrite lookup_insert_eq. split; [|reflexivity].
      vm_compute. reflexivity.
    + rewrite lookup_insert_ne by done.
      rewrite lookup_insert_eq. split; [|reflexivity].
      vm_compute. reflexivity.
Qed.

Lemma process_image_person_example_witness :
  let w1 :=
    snd (process_image (sample_env (Return person_response) (Return sample_image))
           [] (sample_world (sample_entity "Front Door" (Some "/tmp") true))) in
  state (self w1) = Some 1%Z
  /\ exists attr w2,
       device_state_attributes w1 = (Return attr, w2)
       /\ attr !! "person" = Some (AFloat 98.2)
       /\ attr !! "targets" = Some (AList ["person"]).
Proof.
  apply (process_image_person_example
           (sample_env (Return person_response) (Return sample_image)) []
           (sample_world (sample_entity "Front Door" (Some "/tmp") true)));
    reflexivity.
Defined.

(** ** Creating the client *)

Lemma retry_loop_exhausted (E : setup_env) (aws : aws_config)
    (max_retries retries : Z) (st : setup_state) :
  (max_retries < retries)%Z ->
  retry_loop E aws max_retries retries st = (LoopDone None retries, st).
Proof.
  intros H. simp retry_loop.
  destruct (inspect (retries <=? max_retries)%Z) as [[] Hle]; simp retry_loop.
  - pose proof (proj1 (Z.leb_le _ _) Hle). lia.
  - reflexivity.
Qed.

Lemma retry_loop_step (E : setup_env) (aws : aws_config)
    (max_retries retries : Z) (st : setup_state) :
  (retries <= max_retries)%Z ->
  retry_loop E aws max_retries retries st
  = match boto3_client E aws (attempts st) with
    | Return c => (LoopDone (Some c) retries, count_attempt st)
    | Raise KeyError =>
        retry_loop E aws max_retries (retries + 1)
          (time_sleep 1
             (setup_logger INFO
                ("boto3 client failed, retries=" ++ PyStr.str_of_Z retries)
                (count_attempt st)))
    | Raise e => (LoopRaised e, count_attempt st)
    end.
Proof.
  intros H. simp retry_loop.
  destruct (inspect (retries <=? max_retries)%Z) as [[] Hle]; simp retry_loop.
  - destruct (boto3_client E aws (attempts st)) as [c|[]]; simp retry_loop;
      reflexivity.
  - pose proof (proj1 (Z.leb_gt _ _) Hle). lia.
Qed.

(** When every call of [boto3.client] raises [KeyError], the loop runs until
    the counter has passed the maximum: one call and one second of sleep for
    each value of the counter from [retries] to [max_retries]. *)
Lemma retry_loop_all_KeyError (E : setup_env) (aws : aws_config)
    (max_retries : Z) :
  (forall n, boto3_client E aws n = Raise KeyError) ->
  forall (k : nat) (retries : Z) (st : setup_state),
    Z.of_nat k = (max_retries + 1 - retries)%Z ->
    exists st',
      retry_loop E aws max_retries retries st
      = (LoopDone None (max_retries + 1), st')
      /\ attempts st' = (attempts st + k)%nat
      /\ slept st' = (slept st + Z.of_nat k)%Z.
Proof.
  intros Hfail. induction k as [|k IH]; intros retries st Hk.
  - exists st. rewrite retry_loop_exhausted by lia.
    replace retries with (max_retries + 1)%Z by lia.
    repeat split; [lia | cbn; lia].
  - rewrite retry_loop_step by lia. rewrite Hfail.
    destruct (IH (retries + 1)%Z
                (time_sleep 1
                   (setup_logger INFO
                      ("boto3 client failed, retries=" ++ PyStr.str_of_Z retries)
                      (count_attempt st)))
                ltac:(lia)) as (st' & Hrun & Hatt & Hslept).
    exists st'. split; [exact Hrun|]. cbn in Hatt, Hslept. split; lia.
Qed.

(** An exception other than [KeyError] leaves the loop at once. *)
Lemma retry_loop_other_error (E : setup_env) (aws : aws_config)
    (max_retries : Z) (st : setup_state) (e : exn) :
  (0 <= max_retries)%Z ->
  boto3_client E aws (attempts st) = Raise e ->
  e <> KeyError ->
  retry_loop E aws max_retries 0 st = (LoopRaised e, count_attempt st).
Proof.
  intros HR He Hne. rewrite retry_loop_step by lia. rewrite He.
  destruct e; try reflexivity. contradiction.
Qed.

(** C6, as amended.  For every maximum retry count R >= 0, if every call of
    the client constructor raises [KeyError], then [setup_platform] makes
    exactly R + 1 calls (sleeping one second after each) and then raises the
    exception "Failed to create boto3 client ..."; no entity is created. *)
Theorem setup_platform_retries_on_KeyError (E : setup_env) (cfg : config) :
  (0 <= CONF_BOTO_RETRIES cfg)%Z ->
  (forall n, boto3_client E (aws_of cfg) n = Raise KeyError) ->
  exists st',
    setup_platform E cfg setup_init
    = (Raise (PyException (failed_message (CONF_BOTO_RETRIES cfg + 1))), st')
    /\ Z.of_nat (attempts st') = (CONF_BOTO_RETRIES cfg + 1)%Z
    /\ slept st' = (CONF_BOTO_RETRIES cfg + 1)%Z.
Proof.
  intros HR Hfail.
  set (st0 := setup_logger DEBUG
                ("boto_retries setting is " ++ PyStr.str_of_Z (CONF_BOTO_RETRIES cfg))
                setup_init).
  destruct (retry_loop_all_KeyError E (aws_of cfg) (CONF_BOTO_RETRIES cfg) Hfail
              (Z.to_nat (CONF_BOTO_RETRIES cfg + 1)) 0%Z st0 ltac:(lia))
    as (st' & Hrun & Hatt & Hslept).
  exists st'. split; [|split].
  - unfold setup_platform, bind, modify, raise. fold (aws_of cfg). fold st0.
    rewrite Hrun. reflexivity.
  - rewrite Hatt. cbn. lia.
  - rewrite Hslept. cbn. lia.
Qed.

Lemma setup_platform_retries_on_KeyError_witness :
  exists st',
    setup_platform (always_raises KeyError) (sample_config 2) setup_init
    = (Raise (PyException (failed_message 3)), st')
    /\ Z.of_nat (attempts st') = 3%Z
    /\ slept st' = 3%Z.
Proof.
  apply (setup_platform_retries_on_KeyError (always_raises KeyError) (sample_config 2)).
  - cbn. lia.
  - intros n. reflexivity.
Defined.

(** C6 as stated does not hold: with a maximum of 2 retries and a
    constructor that fails on every call with an exception other than
    [KeyError], setup makes one call, not three, and that exception leaves
    [setup_platform]. *)
Lemma setup_platform_single_attempt_on_other_error :
  (forall n, exists e,
     boto3_client (always_raises (OtherError "NoRegionError"))
       (aws_of (sample_config 2)) n = Raise e)
  /\ CONF_BOTO_RETRIES (sample_config 2) = 2%Z
  /\ exists st',
       setup_platform (always_raises (OtherError "NoRegionError"))
         (sample_config 2) setup_init
       = (Raise (OtherError "NoRegionError"), st')
       /\ attempts st' = 1%nat
       /\ Z.of_nat (attempts st') <> (CONF_BOTO_RETRIES (sample_config 2) + 1)%Z.
Proof.
  split; [intros n; eexists; reflexivity|]. split; [reflexivity|].
  eexists. split; [|split].
  - unfold setup_platform, bind, modify, raise.
    rewrite retry_loop_other_error with (e := OtherError "NoRegionError");
      [reflexivity | cbn; lia | reflexivity | discriminate].
  - reflexivity.
  - cbn. lia.
Qed.

(** ** The annotator *)

(** C7, as amended.  When PIL cannot identify the image bytes
    ([UnidentifiedImageError]), [save_image] returns normally, the set of
    files is as before, and the entity (so its count, its detected-objects
    dictionary and its last-detection timestamp) is as before; only a
    warning is logged. *)
Theorem save_image_bad_data
    (E : env) (image : list Byte.byte) (response : Response)
    (targets : list string) (confidence : Q) (directory camera_entity : string)
    (w : world) :
  Image_open E image = Raise UnidentifiedImageError ->
  exists w',
    save_image E image response targets confidence directory camera_entity w
    = (Return tt, w')
    /\ files w' = files w
    /\ self w' = self w
    /\ _state (self w') = _state (self w)
    /\ _objects (self w') = _objects (self w)
    /\ _last_detection (self w') = _last_detection (self w)
    /\ log w' = (log w ++ [(WARNING, "Rekognition unable to process image, bad data")])%list.
Proof.
  intros H. unfold save_image. rewrite H.
  eexists. split; [reflexivity|]. repeat split.
Qed.

Lemma save_image_bad_data_witness :
  exists w',
    save_image (sample_env (Return person_response) (Raise UnidentifiedImageError))
      [] person_response ["person"] 80 "/tmp" "Front Door"
      (sample_world (sample_entity "Front Door" (Some "/tmp") true))
    = (Return tt, w')
    /\ files w' = ∅
    /\ self w' = sample_entity "Front Door" (Some "/tmp") true.
Proof.
  destruct (save_image_bad_data
              (sample_env (Return person_response) (Raise UnidentifiedImageError))
              [] person_response ["person"] 80 "/tmp" "Front Door"
              (sample_world (sample_entity "Front Door" (Some "/tmp") true))
              eq_refl) as (w' & Hrun & Hfiles & Hself & _).
  exists w'. repeat split; assumption.
Defined.

(** C7 as stated does not hold for every corrupt input: on the first bytes
    of a JPEG file cut short, which PIL identifies and then fails to load
    with [OSError], that exception leaves [save_image]. *)
Lemma save_image_truncated_image_raises :
  Image_open (sample_env (Return person_response) (Raise OSError)) truncated_jpeg
  = Raise OSError
  /\ save_image (sample_env (Return person_response) (Raise OSError))
       truncated_jpeg person_response ["person"] 80 "/tmp" "Front Door"
       (sample_world (sample_entity "Front Door" (Some "/tmp") true))
     = (Raise OSError,
        sample_world (sample_entity "Front Door" (Some "/tmp") true)).
Proof. split; reflexivity. Qed.

(** Any other exception of the decoder is not caught. *)
Lemma save_image_other_decode_error
    (E : env) (image : list Byte.byte) (response : Response)
    (targets : list string) (confidence : Q) (directory camera_entity : string)
    (w : world) (e : exn) :
  Image_open E image = Raise e ->
  e <> UnidentifiedImageError ->
  save_image E image response targets confidence directory camera_entity w
  = (Raise e, w).
Proof.
  intros H Hne. unfold save_image. rewrite H.
  destruct e; try reflexivity. contradiction.
Qed.

Lemma in_list_elem_of (x : string) (l : list string) :
  in_list x l = true <-> x ∈ l.
Proof.
  unfold in_list. rewrite existsb_exists, list_elem_of_In. split.
  - intros (y & Hy & Heq). apply String.eqb_eq in Heq. subst. exact Hy.
  - intros H. exists x. split; [exact H | apply String.eqb_refl].
Qed.

Lemma draw_instances_spec (object_name : string) (label : Label)
    (instances : list Instance) (img : PILImage) :
  object_name = PyStr.lower (Name label) ->
  let img' := foldl (draw_instance object_name label) img instances in
  width img' = width img /\ height img' = height img
  /\ pixels img' = pixels img
  /\ drawn img'
     = (drawn img ++ map (box_of (width img) (height img) label) instances)%list.
Proof.
  intros ->. revert img.
  induction instances as [|i instances IH]; intros img; cbn [foldl map].
  - rewrite app_nil_r. repeat split.
  - destruct (IH (draw_instance (PyStr.lower (Name label)) label img i))
      as (Hw & Hh & Hp & Hd).
    cbv zeta in *. rewrite Hw, Hh, Hp, Hd.
    unfold draw_instance, draw_box. cbn [width height pixels drawn].
    rewrite <- app_assoc. repeat split.
Qed.

Lemma draw_label_spec (targets : list string) (confidence : Q)
    (img : PILImage) (label : Label) :
  let img' := draw_label targets confidence img label in
  width img' = width img /\ height img' = height img
  /\ pixels img' = pixels img
  /\ drawn img'
     = (drawn img
        ++ boxes_of_label targets confidence (width img) (height img) label)%list.
Proof.
  unfold draw_label, boxes_of_label, is_annotated.
  destruct (PyFloat.ltb (Confidence label) confidence) eqn:Hc; cbn [orb].
  - apply ltb_lt in Hc. rewrite decide_False.
    + rewrite app_nil_r. repeat split.
    + intros [Hle _]. exact (Qlt_not_le _ _ Hc Hle).
  - apply ltb_ge in Hc.
    destruct (in_list (PyStr.lower (Name label)) targets) eqn:Hin; cbn [negb].
    + apply in_list_elem_of in Hin. rewrite decide_True by (split; assumption).
      apply draw_instances_spec. reflexivity.
    + rewrite decide_False.
      * rewrite app_nil_r. repeat split.
      * intros [_ Hel]. apply in_list_elem_of in Hel. congruence.
Qed.

Lemma draw_labels_spec (targets : list string) (confidence : Q)
    (labels : list Label) (img : PILImage) :
  let img' := foldl (draw_label targets confidence) img labels in
  width img' = width img /\ height img' = height img
  /\ pixels img' = pixels img
  /\ drawn img'
     = (drawn img
        ++ flat_map (boxes_of_label targets confidence (width img) (height img))
             labels)%list.
Proof.
  revert img. induction labels as [|label labels IH]; intros img;
    cbn [foldl flat_map].
  - rewrite app_nil_r. repeat split.
  - destruct (IH (draw_label targets confidence img label)) as (Hw & Hh & Hp & Hd).
    destruct (draw_label_spec targets confidence img label) as (Hw1 & Hh1 & Hp1 & Hd1).
    cbv zeta in *. rewrite Hw, Hh, Hp, Hd, Hw1, Hh1, Hp1, Hd1.
    rewrite <- app_assoc. repeat split.
Qed.

(** The run of [save_image] on an image that decodes. *)
Lemma save_image_decoded
    (E : env) (image : list Byte.byte) (response : Response)
    (targets : list string) (confidence : Q) (directory camera_entity : string)
    (w : world) (img0 : PILImage) :
  Image_open E image = Return img0 ->
  let img := annotated targets confidence img0 response in
  let latest := latest_path directory (_name (self w)) in
  let stamped :=
    timestamp_path directory (_name (self w)) (_last_detection (self w)) in
  save_image E image response targets confidence directory camera_entity w
  = if save_ok E latest then
      let w1 := with_files w (<[latest := img]> (files w)) in
      if _save_timestamped_file (self w) then
        if save_ok E stamped then
          (Return tt,
           logger INFO ("Rekognition saved file " ++ path_str stamped)
             (with_files w (<[stamped := img]> (<[latest := img]> (files w)))))
        else (Raise OSError, w1)
      else (Return tt, w1)
    else (Raise OSError, w).
Proof.
  intros H. unfold save_image. rewrite H. cbv zeta.
  unfold bind, gets, ret, modify, img_save, latest_path, timestamp_path,
    annotated, with_files, logger.
  cbn [self files log fst snd].
  destruct (save_ok E (directory, _)); [|reflexivity].
  cbn [self files log].
  destruct (_save_timestamped_file (self w)); [|reflexivity].
  destruct (save_ok E (directory, _)); reflexivity.
Qed.

(** C8.  On an image that decodes, the image saved by the annotator has the
    size of the decoded image and, after what was drawn before, one box per
    instance of every label whose confidence is at least the threshold and
    whose lowercased name is in the target list, label by label and instance
    by instance, and no other box; the box of an instance has the pixel
    corners (left * width, top * height) and ((left + width) * width,
    (top + height) * height) of the image, computed in binary64 as the code
    computes them, and the caption
    "<lowercased name>: <confidence to one decimal>%". *)
Theorem save_image_boxes
    (E : env) (image : list Byte.byte) (response : Response)
    (targets : list string) (confidence : Q) (directory camera_entity : string)
    (w : world) (img0 : PILImage) :
  Image_open E image = Return img0 ->
  save_ok E (latest_path directory (_name (self w))) = true ->
  exists img,
    files (snd (save_image E image response targets confidence directory
                  camera_entity w))
    !! latest_path directory (_name (self w)) = Some img
    /\ width img = width img0 /\ height img = height img0
    /\ drawn img
       = (drawn img0
          ++ flat_map
               (fun label =>
                  if decide ((confidence <= Confidence label)%Q
                             /\ PyStr.lower (Name label) ∈ targets)
                  then
                    map (fun instance =>
                           let b := inst_BoundingBox instance in
                           {| px_left :=
                                (Left b * PyFloat.float_of_int (width img0))%float;
                              px_top :=
                                (Top b * PyFloat.float_of_int (height img0))%float;
                              px_right :=
                                ((Left b + Width b)
                                 * PyFloat.float_of_int (width img0))%float;
                              px_bottom :=
                                ((Top b + Height b)
                                 * PyFloat.float_of_int (height img0))%float;
                              box_text :=
                                PyStr.lower (Name label) ++ ": "
                                ++ PyFloat.format_1f (Confidence label) ++ "%" |})
                        (Instances label)
                  else [])
               (Labels response))%list.
Proof.
  intros Hopen Hok.
  exists (annotated targets confidence img0 response).
  destruct (draw_labels_spec targets confidence (Labels response) img0)
    as (Hw & Hh & _ & Hd).
  split; [|repeat split; [exact Hw | exact Hh | exact Hd]].
  rewrite (save_image_decoded E image response targets confidence directory
             camera_entity w img0 Hopen).
  cbv zeta. rewrite Hok.
  destruct (_save_timestamped_file (self w)).
  - destruct (save_ok E (timestamp_path _ _ _)); cbn [snd files with_files logger].
    + destruct (decide (timestamp_path directory (_name (self w))
                          (_last_detection (self w))
                        = latest_path directory (_name (self w)))) as [->|Hne].
      * apply lookup_insert_eq.
      * rewrite lookup_insert_ne by exact Hne. apply lookup_insert_eq.
    + apply lookup_insert_eq.
  - cbn [snd files with_files]. apply lookup_insert_eq.
Qed.

Lemma save_image_boxes_witness :
  exists img,
    files (snd (save_image (sample_env (Return person_response) (Return sample_image))
                  [] person_response ["person"] 80 "/tmp" "Front Door"
                  (sample_world (sample_entity "Front Door" (Some "/tmp") true))))
    !! ("/tmp", "front_door_latest.jpg") = Some img
    /\ width img = 640%Z /\ height img = 480%Z
    /\ drawn img
       = [ {| px_left := 64%float; px_top := 48%float;
              px_right := 192.00000000000003%float;
              px_bottom := 192%float;
              box_text := "person: 98.2%" |} ].
Proof.
  exact (save_image_boxes
           (sample_env (Return person_response) (Return sample_image))
           [] person_response ["person"] 80 "/tmp" "Front Door"
           (sample_world (sample_entity "Front Door" (Some "/tmp") true))
           sample_image eq_refl eq_refl).
Defined.

(** ** Paths of the saved files *)

Lemma checked_on_range (f : Z -> bool) (lo len z : Z) :
  forallb (fun k => f (lo + Z.of_nat k)%Z) (seq 0 (Z.to_nat len)) = true ->
  (lo <= z < lo + len)%Z ->
  f z = true.
Proof.
  intros Hall Hz. rewrite forallb_forall in Hall.
  specialize (Hall (Z.to_nat (z - lo))).
  replace (lo + Z.of_nat (Z.to_nat (z - lo)))%Z with z in Hall by lia.
  apply Hall, in_seq. lia.
Qed.

Lemma pad2_digits (z : Z) : (0 <= z <= 99)%Z -> digits 2 (pad2 z).
Proof.
  intros Hz. apply (checked_on_range (fun z => digits_b 2 (pad2 z)) 0 100).
  - vm_compute. reflexivity.
  - lia.
Qed.

Lemma year_digits (z : Z) : (1000 <= z <= 9999)%Z -> digits 4 (PyStr.str_of_Z z).
Proof.
  intros Hz.
  apply (checked_on_range (fun z => digits_b 4 (PyStr.str_of_Z z)) 1000 9000).
  - vm_compute. reflexivity.
  - lia.
Qed.

(** The timestamp has the shape YYYY-MM-DD_HH:MM:SS. *)
Lemma strftime_DATETIME_FORMAT_shape (t : datetime) :
  valid_datetime t ->
  exists Y M D h m s,
    digits 4 Y /\ digits 2 M /\ digits 2 D
    /\ digits 2 h /\ digits 2 m /\ digits 2 s
    /\ strftime_DATETIME_FORMAT t
       = Y ++ "-" ++ M ++ "-" ++ D ++ "_" ++ h ++ ":" ++ m ++ ":" ++ s.
Proof.
  intros [Hy Hm Hd Hh Hmi Hs].
  exists (PyStr.str_of_Z (year t)), (pad2 (month t)), (pad2 (day t)),
    (pad2 (hour t)), (pad2 (minute t)), (pad2 (second t)).
  repeat split;
    [apply year_digits; lia | apply pad2_digits; lia ..].
Qed.

Example strftime_DATETIME_FORMAT_ex :
  strftime_DATETIME_FORMAT sample_now = "2020-03-07_09:05:30".
Proof. vm_compute. reflexivity. Qed.

(** What a successful [save_image] leaves in the directory. *)
Lemma save_image_writes
    (E : env) (image : list Byte.byte) (response : Response)
    (targets : list string) (confidence : Q) (directory camera_entity : string)
    (w w' : world) (img0 : PILImage) :
  Image_open E image = Return img0 ->
  save_image E image response targets confidence directory camera_entity w
  = (Return tt, w') ->
  let img := annotated targets confidence img0 response in
  let latest := latest_path directory (_name (self w)) in
  let stamped :=
    timestamp_path directory (_name (self w)) (_last_detection (self w)) in
  files w' !! latest = Some img
  /\ (_save_timestamped_file (self w) = false ->
      files w' = <[latest := img]> (files w))
  /\ (_save_timestamped_file (self w) = true ->
      files w' = <[stamped := img]> (<[latest := img]> (files w))
      /\ files w' !! stamped = Some img).
Proof.
  intros Hopen Hrun img latest stamped.
  rewrite (save_image_decoded E image response targets confidence directory
             camera_entity w img0 Hopen) in Hrun.
  cbv zeta in Hrun. fold img latest stamped in Hrun.
  destruct (save_ok E latest); [|discriminate].
  destruct (_save_timestamped_file (self w)).
  - destruct (save_ok E stamped); [|discriminate].
    injection Hrun as <-. cbn [files logger with_files].
    split; [|split; [discriminate|]].
    + destruct (decide (stamped = latest)) as [->|Hne].
      * apply lookup_insert_eq.
      * rewrite lookup_insert_ne by exact Hne. apply lookup_insert_eq.
    + intros _. split; [reflexivity | apply lookup_insert_eq].
  - injection Hrun as <-. cbn [files with_files].
    split; [apply lookup_insert_eq|]. split; [reflexivity | discriminate].
Qed.

(** C9, as amended.  Every successful save writes the annotated image to
    [<directory>/<n>_latest.jpg], where [<n>] is the lowercased
    [get_valid_filename] of the entity name, replacing whatever was there;
    without the timestamped-file option nothing else changes; with it the
    image is also written to [<directory>/<name>_<last detection>.jpg] with
    the entity name as it is, and when the last detection is a formatted
    time this file is [<name>_YYYY-MM-DD_HH:MM:SS.jpg]. *)
Theorem saved_file_paths
    (E : env) (image : list Byte.byte) (response : Response)
    (targets : list string) (confidence : Q) (directory camera_entity : string)
    (w w' : world) (img0 : PILImage) :
  Image_open E image = Return img0 ->
  save_image E image response targets confidence directory camera_entity w
  = (Return tt, w') ->
  let img := annotated targets confidence img0 response in
  let name := _name (self w) in
  let latest :=
    (directory, PyStr.lower (get_valid_filename name) ++ "_latest.jpg") in
  files w' !! latest = Some img
  /\ (_save_timestamped_file (self w) = false ->
      files w' = <[latest := img]> (files w))
  /\ (_save_timestamped_file (self w) = true ->
      files w'
      = <[(directory,
           name ++ "_" ++ py_str_option (_last_detection (self w)) ++ ".jpg")
          := img]> (<[latest := img]> (files w))
      /\ forall t,
           valid_datetime t ->
           _last_detection (self w) = Some (strftime_DATETIME_FORMAT t) ->
           exists Y M D h m s,
             digits 4 Y /\ digits 2 M /\ digits 2 D
             /\ digits 2 h /\ digits 2 m /\ digits 2 s
             /\ files w'
                !! (directory,
                    name ++ "_"
                    ++ (Y ++ "-" ++ M ++ "-" ++ D ++ "_" ++ h ++ ":" ++ m ++ ":" ++ s)
                    ++ ".jpg")
                = Some img).
Proof.
  intros Hopen Hrun img name latest.
  destruct (save_image_writes E image response targets confidence directory
              camera_entity w w' img0 Hopen Hrun) as (Hlatest & Hplain & Hstamped).
  split; [exact Hlatest|]. split; [exact Hplain|].
  intros Hts. destruct (Hstamped Hts) as [Hfiles Hlookup].
  split; [exact Hfiles|].
  intros t Ht Hlast.
  destruct (strftime_DATETIME_FORMAT_shape t Ht)
    as (Y & M & D & h & m & s & HY & HM & HD & Hh & Hm & Hs & Heq).
  exists Y, M, D, h, m, s. repeat (split; [assumption|]).
  rewrite <- Heq. unfold timestamp_path in Hlookup. rewrite Hlast in Hlookup.
  exact Hlookup.
Qed.

Lemma saved_file_paths_witness :
  let run :=
    save_image (sample_env (Return person_response) (Return sample_image))
      [] person_response ["person"] 80 "/tmp" "Front Door"
      (sample_world detected_entity) in
  files (snd run) !! ("/tmp", "front_door_latest.jpg")
  = Some (annotated ["person"] 80 sample_image person_response)
  /\ files (snd run) !! ("/tmp", "Front Door_2020-03-07_09:05:30.jpg")
     = Some (annotated ["person"] 80 sample_image person_response).
Proof.
  intros run.
  assert (Hrun : run = (Return tt, snd run)) by (vm_compute; reflexivity).
  destruct (saved_file_paths
              (sample_env (Return person_response) (Return sample_image))
              [] person_response ["person"] 80 "/tmp" "Front Door"
              (sample_world detected_entity) (snd run) sample_image eq_refl Hrun)
    as (Hlatest & _ & Hstamped).
  split; [exact Hlatest|].
  destruct (Hstamped eq_refl) as [Hfiles _].
  rewrite Hfiles. apply lookup_insert_eq.
Defined.

(** C9 as stated does not hold: for the entity name "Front Door" the latest
    file is not [Front_Door_latest.jpg], the sanitized name followed by the
    suffix, but [front_door_latest.jpg]. *)
Lemma latest_file_name_is_lowercased :
  let run :=
    save_image (sample_env (Return person_response) (Return sample_image))
      [] person_response ["person"] 80 "/tmp" "Front Door"
      (sample_world detected_entity) in
  fst run = Return tt
  /\ get_valid_filename "Front Door" = "Front_Door"
  /\ files (snd run) !! ("/tmp", get_valid_filename "Front Door" ++ "_latest.jpg")
     = None
  /\ files (snd run) !! ("/tmp", "front_door_latest.jpg")
     = Some (annotated ["person"] 80 sample_image person_response).
Proof. vm_compute. repeat split; reflexivity. Qed.

(** ** The last-detection timestamp over the life of an entity *)

Lemma detects_same_config (o o' : ObjectDetection) (c : call) :
  same_config o o' -> detects o' c <-> detects o c.
Proof.
  intros (Hc & Ht & Hq). destruct c as [E image|]; [|reflexivity].
  unfold detects, total_found. rewrite Hc, Ht, Hq. reflexivity.
Qed.

Lemma step_spec (w : world) (c : call) :
  same_config (self w) (self (step w c))
  /\ (is_Some (_last_detection (self (step w c)))
      <-> is_Some (_last_detection (self w)) \/ detects (self w) c).
Proof.
  destruct c as [E image|]; cbn [step detects].
  - destruct (detect_labels E (_client (self w)) image) as [response|e] eqn:Hd.
    + rewrite (process_image_self_detected E image w response Hd).
      split; [repeat split|].
      cbn [after_detection _last_detection].
      destruct (0 <? total_found (self w) response)%Z eqn:Hpos.
      * apply Z.ltb_lt in Hpos. split; [|eauto].
        intros _. right. exists response. auto.
      * apply Z.ltb_ge in Hpos. split; [auto|].
        intros [H | (r & Hr & Hlt)]; [exact H|].
        assert (r = response) by congruence. subst r. lia.
    + rewrite (process_image_raised E image w e Hd). cbn [snd self].
      split; [repeat split|]. cbn. split; [auto|].
      intros [H | (r & Hr & _)]; [exact H | discriminate].
  - unfold device_state_attributes. run_monad.
    split; [repeat split|]. tauto.
Qed.

Lemma run_spec (calls : list call) (w : world) :
  same_config (self w) (self (run calls w))
  /\ (is_Some (_last_detection (self (run calls w)))
      <-> is_Some (_last_detection (self w)) \/ Exists (detects (self w)) calls).
Proof.
  revert w. induction calls as [|c calls IH]; intros w.
  - cbn. split; [repeat split|]. rewrite Exists_nil. tauto.
  - change (run (c :: calls) w) with (run calls (step w c)).
    destruct (step_spec w c) as [Hcfg Hstep].
    destruct (IH (step w c)) as [Hcfg' Hrun].
    split.
    + destruct Hcfg as (? & ? & ?), Hcfg' as (? & ? & ?).
      repeat split; congruence.
    + rewrite Hrun, Hstep, Exists_cons.
      assert (Exists (detects (self (step w c))) calls
              <-> Exists (detects (self w)) calls) as ->.
      { rewrite !Exists_exists. split; intros (x & Hx & Hd); exists x;
          (split; [exact Hx|]); apply (detects_same_config _ _ x Hcfg); exact Hd. }
      tauto.
Qed.

Lemma ObjectDetection_init_fresh split client_ region targets confidence
    save_file_folder save_timestamped_file camera_entity name o :
  ObjectDetection_init split client_ region targets confidence save_file_folder
    save_timestamped_file camera_entity name = Return o ->
  _last_detection o = None /\ _state o = None /\ _objects o = ∅.
Proof.
  unfold ObjectDetection_init. intros H.
  destruct name as [[|c r]|]; [| |];
    first [ injection H as <-; repeat split
          | destruct (entity_name_of split camera_entity);
            [injection H as <-; repeat split | discriminate] ].
Qed.

(** C10.  For an entity as its constructor leaves it, after any sequence of
    calls the last-detection timestamp is set exactly when some
    [process_image] among them found a positive total; so it is [None]
    before the first such call, and once set it stays set whatever calls
    follow, calls that find nothing and calls that raise included. *)
Theorem last_detection_persists
    (split : string -> result (list string))
    (client_ : client) (region : string) (targets : list string)
    (confidence : Q) (save_file_folder : option string)
    (save_timestamped_file : bool) (camera_entity : string)
    (name : option string) (o : ObjectDetection)
    (fs : gmap path PILImage) (lg : list log_record) (calls : list call) :
  ObjectDetection_init split client_ region targets confidence save_file_folder
    save_timestamped_file camera_entity name = Return o ->
  let w0 := {| self := o; files := fs; log := lg |} in
  (_last_detection (self (run calls w0)) = None
   <-> Forall (fun c => ~ detects o c) calls)
  /\ (is_Some (_last_detection (self (run calls w0)))
      <-> Exists (detects o) calls)
  /\ (forall later,
        is_Some (_last_detection (self (run calls w0))) ->
        is_Some (_last_detection (self (run later (run calls w0))))).
Proof.
  intros Hinit w0.
  destruct (ObjectDetection_init_fresh _ _ _ _ _ _ _ _ _ _ Hinit) as (Hnone & _).
  destruct (run_spec calls w0) as [_ Hrun]. cbn [self w0] in Hrun.
  rewrite Hnone in Hrun.
  assert (Hsome : is_Some (_last_detection (self (run calls w0)))
                  <-> Exists (detects o) calls).
  { rewrite Hrun. split; [intros [[? H]|H]; [discriminate | exact H] | auto]. }
  split; [|split; [exact Hsome|]].
  - rewrite eq_None_not_Some, Hsome. symmetry. apply Forall_Exists_neg.
  - intros later H. apply (run_spec later (run calls w0)). left. exact H.
Qed.

Lemma last_detection_persists_witness :
  is_Some (_last_detection (self (run sample_calls (sample_world fresh_entity))))
  /\ _last_detection (self (run (firstn 1 sample_calls) (sample_world fresh_entity)))
     = None.
Proof.
  split.
  - apply (last_detection_persists sample_split 0%nat DEFAULT_REGION ["person"] 80 None false
             "camera.front" None fresh_entity ∅ [] sample_calls eq_refl).
    apply Exists_cons_tl, Exists_cons_hd.
    exists person_response. split; [reflexivity | vm_compute; reflexivity].
  - apply (last_detection_persists sample_split 0%nat DEFAULT_REGION ["person"] 80 None false
             "camera.front" None fresh_entity ∅ [] (firstn 1 sample_calls) eq_refl).
    constructor; [|constructor].
    intros (response & Hr & Hpos). injection Hr as <-. vm_compute in Hpos.
    discriminate.
Defined.

(** * Further properties *)

(** ** Case of the target *)

Lemma lower_char_idempotent (c : ascii) :
  PyStr.lower_char (PyStr.lower_char c) = PyStr.lower_char c.
Proof. destruct c as [[] [] [] [] [] [] [] []]; vm_compute; reflexivity. Qed.

Lemma lower_idempotent (s : string) : PyStr.lower (PyStr.lower s) = PyStr.lower s.
Proof.
  induction s as [|c s IH]; [reflexivity|].
  cbn [PyStr.lower]. rewrite lower_char_idempotent, IH. reflexivity.
Qed.

(** ** The per-target counts and their total *)

Lemma count_targets_from (response : Response) (confidence : Q)
    (targets : list string) (done : list Z) :
  foldl
    (fun found '(i, target) =>
       <[i := Z.of_nat (length (get_object_instances response target confidence))]>
         found)
    (done ++ repeat 0%Z (length targets))%list
    (combine (seq (length done) (length targets)) targets)
  = (done ++ map (count_for response confidence) targets)%list.
Proof.
  revert done. induction targets as [|t targets IH]; intros done; [reflexivity|].
  cbn [length repeat seq combine foldl map].
  rewrite insert_app_r_alt by lia. rewrite Nat.sub_diag.
  change (<[0%nat := ?x]> (?y :: ?l)) with (x :: l).
  fold (count_for response confidence t).
  specialize (IH (done ++ [count_for response confidence t])%list).
  rewrite length_app in IH. cbn [length] in IH.
  replace (length done + 1)%nat with (S (length done)) in IH by lia.
  rewrite <- !app_assoc in IH. exact IH.
Qed.

Lemma count_targets_map (response : Response) (confidence : Q)
    (targets : list string) :
  count_targets response confidence targets (repeat 0%Z (length targets))
  = map (count_for response confidence) targets.
Proof. apply (count_targets_from response confidence targets []). Qed.

Lemma py_sum_from (a : Z) (l : list Z) :
  foldl Z.add a l = (a + fold_right Z.add 0 l)%Z.
Proof.
  revert a. induction l as [|x l IH]; intros a; cbn; [lia|].
  rewrite IH. lia.
Qed.

Lemma total_found_sum (o : ObjectDetection) (response : Response) :
  total_found o response
  = fold_right Z.add 0%Z (map (count_for response (_confidence o)) (_targets o)).
Proof.
  unfold total_found, py_sum. rewrite count_targets_map, py_sum_from. lia.
Qed.

Lemma sum_counts_zero (response : Response) (confidence : Q) (targets : list string) :
  (0 <= fold_right Z.add 0 (map (count_for response confidence) targets))%Z
  /\ (fold_right Z.add 0%Z (map (count_for response confidence) targets) = 0%Z
      <-> Forall (fun t => get_object_instances response t confidence = []) targets).
Proof.
  induction targets as [|t targets [Hge IH]]; cbn [map fold_right].
  - split; [lia|]. split; [constructor | reflexivity].
  - assert (Ht : (0 <= count_for response confidence t)%Z)
      by (unfold count_for; lia).
    split; [lia|]. rewrite Forall_cons_iff, <- IH. unfold count_for in *.
    destruct (get_object_instances response t confidence); cbn [length] in *.
    + split; [intros H; split; [reflexivity | lia] | intros [_ H]; lia].
    + split; [intros H; lia | intros [H _]; discriminate].
Qed.

Lemma get_object_instances_same_lower
    (response : Response) (t1 t2 : string) (thr : Q) :
  PyStr.lower t1 = PyStr.lower t2 ->
  get_object_instances response t1 thr = get_object_instances response t2 thr.
Proof.
  intros H. unfold get_object_instances.
  induction (Labels response) as [|l labels IH]; [reflexivity|].
  cbn [get_object_instances_loop]. rewrite H, IH. reflexivity.
Qed.

(** X1.  The case of a target does not matter: a target and its lowercased
    form select the same instances, so the lowercasing of the configured
    targets in [setup_platform] changes no total. *)
Theorem target_case_is_irrelevant
    (response : Response) (target : string) (thr : Q)
    (targets : list string) (o : ObjectDetection) :
  get_object_instances response (PyStr.lower target) thr
  = get_object_instances response target thr
  /\ total_found (with_targets (map PyStr.lower targets) o) response
     = total_found (with_targets targets o) response.
Proof.
  split.
  - apply get_object_instances_same_lower, lower_idempotent.
  - rewrite !total_found_sum. cbn [with_targets _targets _confidence].
    rewrite map_map. f_equal. apply map_ext. intros t. unfold count_for.
    f_equal. f_equal. apply get_object_instances_same_lower, lower_idempotent.
Qed.

(** X2.  When the service answers, [process_image] leaves in
    [_targets_found] one count per target, in the order of the targets, each
    the number of confident instances of that target, and the state is their
    sum; a target listed twice is counted twice. *)
Theorem process_image_counts
    (E : env) (image : list Byte.byte) (w : world) (response : Response) :
  detect_labels E (_client (self w)) image = Return response ->
  let o := self w in
  let o' := self (snd (process_image E image w)) in
  _targets_found o' = map (count_for response (_confidence o)) (_targets o)
  /\ length (_targets_found o') = length (_targets o)
  /\ _state o'
     = Some (fold_right Z.add 0%Z
               (map (count_for response (_confidence o)) (_targets o))).
Proof.
  intros Hd o o'. subst o'.
  rewrite (process_image_self_detected E image w response Hd).
  cbn [after_detection _targets_found _state].
  rewrite count_targets_map, total_found_sum.
  split; [reflexivity|]. split; [apply length_map | reflexivity].
Qed.

Lemma process_image_counts_witness :
  let o' :=
    self (snd (process_image
                 (sample_env (Return person_response) (Return sample_image)) []
                 (sample_world
                    (with_targets ["car"; "person"; "person"] fresh_entity)))) in
  _targets_found o' = [0; 1; 1]%Z /\ _state o' = Some 2%Z.
Proof.
  destruct (process_image_counts
              (sample_env (Return person_response) (Return sample_image)) []
              (sample_world (with_targets ["car"; "person"; "person"] fresh_entity))
              person_response eq_refl) as (Hfound & _ & Hstate).
  split; [exact Hfound | exact Hstate].
Defined.

(** X3.  The state left by a [process_image] whose call of the service
    returns is never negative, and it is 0 exactly when no target has an
    instance above the threshold in the response. *)
Theorem process_image_state_zero
    (E : env) (image : list Byte.byte) (w : world) (response : Response) :
  detect_labels E (_client (self w)) image = Return response ->
  exists n,
    _state (self (snd (process_image E image w))) = Some n
    /\ (0 <= n)%Z
    /\ (n = 0%Z
        <-> Forall (fun t => get_object_instances response t (_confidence (self w)) = [])
              (_targets (self w))).
Proof.
  intros Hd.
  rewrite (process_image_self_detected E image w response Hd).
  cbn [after_detection _state]. eexists. split; [reflexivity|].
  rewrite total_found_sum. apply sum_counts_zero.
Qed.

Lemma process_image_state_zero_witness :
  _state (self (snd (process_image
                       (sample_env (Return empty_response) (Return sample_image)) []
                       (sample_world fresh_entity))))
  = Some 0%Z.
Proof.
  destruct (process_image_state_zero
              (sample_env (Return empty_response) (Return sample_image)) []
              (sample_world fresh_entity) empty_response eq_refl)
    as (n & Hn & _ & Hzero).
  rewrite Hn. f_equal. apply Hzero. repeat constructor.
Defined.

Lemma found_instances_label (labels : list Label) (target : string) (thr : Q) :
  get_object_instances_loop labels target thr <> [] ->
  exists label, In label labels /\ name_matches target label
                /\ has_instances label.
Proof.
  induction labels as [|l labels IH]; cbn [get_object_instances_loop];
    [congruence|].
  destruct (String.eqb_spec (PyStr.lower (Name l)) (PyStr.lower target)) as [Heq|_].
  - intros Hne. exists l. split; [left; reflexivity|]. split; [exact Heq|].
    unfold has_instances. destruct (Instances l); [contradiction | discriminate].
  - intros Hne. destruct (IH Hne) as (l' & Hin & Hm & Hi).
    exists l'. split; [right; exact Hin | auto].
Qed.

Lemma sum_counts_positive (response : Response) (confidence : Q)
    (targets : list string) :
  (0 < fold_right Z.add 0 (map (count_for response confidence) targets))%Z ->
  exists t, In t targets /\ get_object_instances response t confidence <> [].
Proof.
  induction targets as [|t targets IH]; cbn [map fold_right]; [lia|].
  intros Hpos.
  destruct (get_object_instances response t confidence) eqn:Ht.
  - unfold count_for in Hpos at 1. rewrite Ht in Hpos. cbn [length] in Hpos.
    destruct (IH ltac:(lia)) as (t' & Hin & Hne).
    exists t'. split; [right; exact Hin | exact Hne].
  - exists t. split; [left; reflexivity|]. rewrite Ht. discriminate.
Qed.

(** X4.  Whenever [process_image] leaves a positive state, some target is
    among the detected objects: its lowercased name is a key of the
    dictionary built by [get_objects] from the same response. *)
Theorem positive_state_target_detected
    (E : env) (image : list Byte.byte) (w : world) (response : Response) (n : Z) :
  detect_labels E (_client (self w)) image = Return response ->
  _state (self (snd (process_image E image w))) = Some n ->
  (0 < n)%Z ->
  exists target,
    In target (_targets (self w))
    /\ is_Some (_objects (self (snd (process_image E image w)))
                !! PyStr.lower target).
Proof.
  intros Hd Hstate Hpos.
  rewrite (process_image_self_detected E image w response Hd) in *.
  cbn [after_detection _state _objects] in *.
  injection Hstate as <-. rewrite total_found_sum in Hpos.
  destruct (sum_counts_positive _ _ _ Hpos) as (t & Hin & Hne).
  exists t. split; [exact Hin|].
  destruct (found_instances_label _ _ _ Hne) as (l & Hl & Hm & Hi).
  destruct response as [labels]. apply get_objects_keys.
  exists l. auto.
Qed.

Lemma positive_state_target_detected_witness :
  exists target,
    In target ["person"]
    /\ is_Some (_objects
                  (self (snd (process_image
                                (sample_env (Return person_response)
                                   (Return sample_image)) []
                                (sample_world fresh_entity))))
                !! PyStr.lower target).
Proof.
  apply (positive_state_target_detected
           (sample_env (Return person_response) (Return sample_image)) []
           (sample_world fresh_entity) person_response 1 eq_refl).
  - vm_compute. reflexivity.
  - lia.
Defined.

(** ** Outcomes of [process_image] *)

(** X5.  When the call of the service raises, [process_image] raises the
    same exception; the state has been reset to [None] and the counts to
    zeros, while the detected objects and the last-detection timestamp are
    those of the previous call, and nothing is written or logged. *)
Theorem process_image_service_error
    (E : env) (image : list Byte.byte) (w : world) (e : exn) :
  detect_labels E (_client (self w)) image = Raise e ->
  exists w',
    process_image E image w = (Raise e, w')
    /\ _state (self w') = None
    /\ _targets_found (self w') = repeat 0%Z (length (_targets (self w)))
    /\ _objects (self w') = _objects (self w)
    /\ _last_detection (self w') = _last_detection (self w)
    /\ files w' = files w /\ log w' = log w.
Proof.
  intros Hd. rewrite (process_image_raised E image w e Hd).
  eexists. split; [reflexivity|]. repeat split.
Qed.

Lemma process_image_service_error_witness :
  exists w',
    process_image
      (sample_env (Raise (OtherError "EndpointConnectionError")) (Return sample_image))
      [] (sample_world detected_entity)
    = (Raise (OtherError "EndpointConnectionError"), w')
    /\ _state (self w') = None
    /\ _last_detection (self w') = Some "2020-03-07_09:05:30".
Proof.
  destruct (process_image_service_error
              (sample_env (Raise (OtherError "EndpointConnectionError"))
                 (Return sample_image))
              [] (sample_world detected_entity)
              (OtherError "EndpointConnectionError") eq_refl)
    as (w' & Hrun & Hstate & _ & _ & Hlast & _).
  exists w'. repeat split; assumption.
Defined.



(** X7.  When the service answers, the entity records the detection
    whatever happens to the save afterwards (also when the save raises):
    the state is the total, the detected objects are those of the response,
    and the last detection is the time of the call if the total is positive
    and as before otherwise; the configuration is not touched. *)
Theorem process_image_records_detection
    (E : env) (image : list Byte.byte) (w : world) (response : Response) :
  detect_labels E (_client (self w)) image = Return response ->
  let o := self w in
  let o' := self (snd (process_image E image w)) in
  _state o' = Some (total_found o response)
  /\ _objects o' = get_objects response
  /\ ((0 < total_found o response)%Z ->
      _last_detection o' = Some (strftime_DATETIME_FORMAT (dt_now E)))
  /\ ((total_found o response <= 0)%Z -> _last_detection o' = _last_detection o)
  /\ _targets o' = _targets o /\ _confidence o' = _confidence o
  /\ _name o' = _name o /\ _save_file_folder o' = _save_file_folder o
  /\ _save_timestamped_file o' = _save_timestamped_file o.
Proof.
  intros Hd o o'. subst o'.
  rewrite (process_image_self_detected E image w response Hd).
  cbn [after_detection _state _objects _last_detection _targets _confidence
       _name _save_file_folder _save_timestamped_file].
  repeat split.
  - intros H. apply Z.ltb_lt in H. fold o. rewrite H. reflexivity.
  - intros H. apply Z.ltb_ge in H. fold o. rewrite H. reflexivity.
Qed.

Lemma process_image_records_detection_witness :
  let run :=
    process_image (sample_env (Return person_response) (Raise OSError)) []
      (sample_world (sample_entity "Front Door" (Some "/tmp") true)) in
  fst run = Raise OSError
  /\ _state (self (snd run)) = Some 1%Z
  /\ _last_detection (self (snd run)) = Some "2020-03-07_09:05:30".
Proof.
  intros run.
  destruct (process_image_records_detection
              (sample_env (Return person_response) (Raise OSError)) []
              (sample_world (sample_entity "Front Door" (Some "/tmp") true))
              person_response eq_refl) as (Hstate & _ & Hlast & _).
  split; [vm_compute; reflexivity|]. split.
  - exact Hstate.
  - apply Hlast. vm_compute. reflexivity.
Defined.

(** X8.  When the total is positive and a save folder is configured but PIL
    cannot identify the image, [process_image] still returns normally: the
    detection is recorded, no file is written and one warning is logged. *)
Theorem process_image_bad_image
    (E : env) (image : list Byte.byte) (w : world) (response : Response)
    (directory : string) :
  detect_labels E (_client (self w)) image = Return response ->
  (0 < total_found (self w) response)%Z ->
  _save_file_folder (self w) = Some directory ->
  Image_open E image = Raise UnidentifiedImageError ->
  exists w',
    process_image E image w = (Return tt, w')
    /\ _state (self w') = Some (total_found (self w) response)
    /\ _last_detection (self w') = Some (strftime_DATETIME_FORMAT (dt_now E))
    /\ files w' = files w
    /\ log w'
       = (log w ++ [(WARNING, "Rekognition unable to process image, bad data")])%list.
Proof.
  intros Hd Hpos Hdir Hbad.
  destruct (process_image_saves_with_timestamp E image w response directory
              Hd Hpos Hdir) as [Hrun Hlast].
  cbv zeta in Hrun, Hlast. rewrite Hrun. unfold save_image. rewrite Hbad.
  eexists. split; [reflexivity|]. cbn [modify logger self files log].
  repeat split. exact Hlast.
Qed.

Lemma process_image_bad_image_witness :
  exists w',
    process_image
      (sample_env (Return person_response) (Raise UnidentifiedImageError)) []
      (sample_world (sample_entity "Front Door" (Some "/tmp") true))
    = (Return tt, w')
    /\ _state (self w') = Some 1%Z
    /\ files w' = ∅.
Proof.
  destruct (process_image_bad_image
              (sample_env (Return person_response) (Raise UnidentifiedImageError))
              [] (sample_world (sample_entity "Front Door" (Some "/tmp") true))
              person_response "/tmp" eq_refl ltac:(vm_compute; reflexivity)
              eq_refl eq_refl) as (w' & Hrun & Hstate & _ & Hfiles & _).
  exists w'. repeat split; assumption.
Defined.

(** ** The attributes *)

(** X9.  The attributes always carry the target list under "targets", also
    when a detected label has that name; they carry the last detection under
    "last_target_detection" exactly when it is a non-empty string; every
    other key is as in the detected objects.  The dictionary returned is the
    entity's own: afterwards the detected objects of the entity are the
    attributes. *)
Theorem device_state_attributes_spec (w : world) :
  exists attr w',
    device_state_attributes w = (Return attr, w')
    /\ attr !! "targets" = Some (AList (_targets (self w)))
    /\ attr !! "last_target_detection"
       = match _last_detection (self w) with
         | Some (String c r) => Some (AStr (String c r))
         | _ => _objects (self w) !! "last_target_detection"
         end
    /\ (forall k, ~ reserved_key k -> attr !! k = _objects (self w) !! k)
    /\ _objects (self w') = attr
    /\ _state (self w') = _state (self w)
    /\ _last_detection (self w') = _last_detection (self w)
    /\ files w' = files w /\ log w' = log w.
Proof.
  unfold device_state_attributes. run_monad.
  eexists _, _. split; [reflexivity|].
  assert (Hplain : forall k, ~ reserved_key k -> k <> "targets").
  { intros k Hk ->. apply Hk. left. reflexivity. }
  assert (Hlast : forall k, ~ reserved_key k -> k <> "last_target_detection").
  { intros k Hk ->. apply Hk. right. reflexivity. }
  destruct (_last_detection (self w)) as [[|c r]|] eqn:Hl;
    cbn [truthy py_str_option].
  - split; [apply lookup_insert_eq|]. split; [apply lookup_insert_ne; done|].
    split; [|repeat split; exact Hl].
    intros k Hk. apply lookup_insert_ne. intros Heq. exact (Hplain k Hk (eq_sym Heq)).
  - split; [rewrite lookup_insert_ne by done; apply lookup_insert_eq|].
    split; [apply lookup_insert_eq|]. split; [|repeat split; exact Hl].
    intros k Hk. rewrite !lookup_insert_ne; [reflexivity| |].
    + intros Heq. exact (Hplain k Hk (eq_sym Heq)).
    + intros Heq. exact (Hlast k Hk (eq_sym Heq)).
  - split; [apply lookup_insert_eq|]. split; [apply lookup_insert_ne; done|].
    split; [|repeat split; exact Hl].
    intros k Hk. apply lookup_insert_ne. intros Heq. exact (Hplain k Hk (eq_sym Heq)).
Qed.

(** X10.  Reading the attributes twice gives the same dictionary as reading
    them once, and the second reading changes nothing. *)
Theorem device_state_attributes_idempotent (w : world) :
  exists attr w',
    device_state_attributes w = (Return attr, w')
    /\ device_state_attributes w' = (Return attr, w').
Proof.
  unfold device_state_attributes. run_monad.
  eexists _, _. split; [reflexivity|]. unfold_setters.
  destruct (truthy (_last_detection (self w))).
  - rewrite (insert_insert_ne _ "targets" "last_target_detection") by done.
    rewrite insert_insert_eq, insert_insert_eq. reflexivity.
  - rewrite insert_insert_eq. reflexivity.
Qed.

(** ** Sanitized file names *)

Lemma allowed_not_space (c : ascii) :
  allowed c = true -> PyStr.is_space c = false /\ Ascii.eqb c " " = false.
Proof.
  destruct c as [[] [] [] [] [] [] [] []]; vm_compute; intros H;
    first [discriminate H | split; reflexivity].
Qed.

Lemma allowed_lower (c : ascii) : allowed c = true -> allowed (PyStr.lower_char c) = true.
Proof.
  destruct c as [[] [] [] [] [] [] [] []]; vm_compute; intros H;
    first [discriminate H | reflexivity].
Qed.

Lemma allowed_not_slash (c : ascii) : allowed c = true -> not_slash c = true.
Proof.
  destruct c as [[] [] [] [] [] [] [] []]; vm_compute; intros H;
    first [discriminate H | reflexivity].
Qed.

Lemma all_chars_impl (p q : ascii -> bool) (s : string) :
  (forall c, p c = true -> q c = true) ->
  PyStr.all_chars p s = true -> PyStr.all_chars q s = true.
Proof.
  intros Hpq. induction s as [|c s IH]; [reflexivity|].
  cbn [PyStr.all_chars]. intros H. apply andb_prop in H as [Hc Hs].
  rewrite (Hpq c Hc), (IH Hs). reflexivity.
Qed.

Lemma all_chars_app (p : ascii -> bool) (s1 s2 : string) :
  PyStr.all_chars p (s1 ++ s2)
  = PyStr.all_chars p s1 && PyStr.all_chars p s2.
Proof.
  induction s1 as [|c s1 IH]; [reflexivity|].
  change (String c s1 ++ s2) with (String c (s1 ++ s2)).
  cbn [PyStr.all_chars]. rewrite IH. apply andb_assoc.
Qed.

Lemma all_chars_lower (s : string) :
  PyStr.all_chars allowed s = true ->
  PyStr.all_chars allowed (PyStr.lower s) = true.
Proof.
  induction s as [|c s IH]; [reflexivity|].
  cbn [PyStr.lower PyStr.all_chars]. intros H. apply andb_prop in H as [Hc Hs].
  rewrite (allowed_lower c Hc), (IH Hs). reflexivity.
Qed.

Lemma allowed_fixed (s : string) :
  PyStr.all_chars allowed s = true ->
  PyStr.lstrip s = s /\ PyStr.rstrip s = s
  /\ PyStr.replace_char " " "_" s = s
  /\ PyStr.re_sub_delete_outside allowed s = s.
Proof.
  induction s as [|c s IH]; [repeat split|].
  cbn [PyStr.all_chars]. intros H. apply andb_prop in H as [Hc Hs].
  destruct (IH Hs) as (_ & Hr & Hrep & Hsub).
  destruct (allowed_not_space c Hc) as [Hsp Heq].
  cbn [PyStr.lstrip PyStr.rstrip PyStr.replace_char PyStr.re_sub_delete_outside].
  rewrite Hsp, Hr, Heq, Hrep, Hc, Hsub.
  repeat split. destruct s; reflexivity.
Qed.

Lemma get_valid_filename_fixed (s : string) :
  PyStr.all_chars allowed s = true -> get_valid_filename s = s.
Proof.
  intros Hall. destruct (allowed_fixed s Hall) as (Hl & Hr & Hrep & Hsub).
  unfold get_valid_filename, PyStr.strip. rewrite Hl, Hr, Hrep. exact Hsub.
Qed.

(** X11.  Sanitizing is idempotent: a sanitized name is left as it is. *)
Theorem get_valid_filename_idempotent (name : string) :
  get_valid_filename (get_valid_filename name) = get_valid_filename name.
Proof.
  apply get_valid_filename_fixed.
  exact (re_sub_delete_outside_all allowed
           (PyStr.replace_char " " "_" (PyStr.strip name))).
Qed.

(** X12.  For every entity name over the alphabet of the model (code points
    below 256, where [str.lower] maps a character to one character), the
    name of the latest file has only word characters, hyphens and periods,
    so no path separator and no whitespace. *)
Theorem latest_file_name_is_safe (directory name : string) :
  fst (latest_path directory name) = directory
  /\ PyStr.all_chars allowed (snd (latest_path directory name)) = true
  /\ PyStr.all_chars not_slash (snd (latest_path directory name)) = true
  /\ PyStr.all_chars (fun c => negb (PyStr.is_space c))
       (snd (latest_path directory name)) = true.
Proof.
  assert (Hall : PyStr.all_chars allowed (snd (latest_path directory name)) = true).
  { unfold latest_path. cbn [snd]. rewrite all_chars_app.
    rewrite all_chars_lower by apply re_sub_delete_outside_all. reflexivity. }
  split; [reflexivity|]. split; [exact Hall|]. split.
  - exact (all_chars_impl _ _ _ allowed_not_slash Hall).
  - apply (all_chars_impl allowed); [|exact Hall].
    intros c Hc. destruct (allowed_not_space c Hc) as [-> _]. reflexivity.
Qed.

Lemma device_state_attributes_spec_witness :
  exists attr w',
    device_state_attributes
      (sample_world (set_objects (get_objects person_response) detected_entity))
    = (Return attr, w')
    /\ attr !! "targets" = Some (AList ["person"])
    /\ attr !! "last_target_detection" = Some (AStr "2020-03-07_09:05:30")
    /\ attr !! "person" = Some (AFloat 98.2).
Proof.
  destruct (device_state_attributes_spec
              (sample_world (set_objects (get_objects person_response)
                               detected_entity)))
    as (attr & w' & Hrun & Ht & Hl & Hk & _).
  exists attr, w'. split; [exact Hrun|]. split; [exact Ht|]. split; [exact Hl|].
  rewrite Hk; [vm_compute; reflexivity|].
  intros [H|H]; discriminate H.
Defined.

(** ** What a save leaves alone *)

(** X13.  Whatever its outcome, [save_image] does not change the entity and
    touches no file other than the latest file and, with the timestamped
    option, the timestamped file. *)
Theorem save_image_frame
    (E : env) (image : list Byte.byte) (response : Response)
    (targets : list string) (confidence : Q) (directory camera_entity : string)
    (w : world) (p : path) :
  p <> latest_path directory (_name (self w)) ->
  _save_timestamped_file (self w) = false
  \/ p <> timestamp_path directory (_name (self w)) (_last_detection (self w)) ->
  let w' := snd (save_image E image response targets confidence directory
                   camera_entity w) in
  files w' !! p = files w !! p /\ self w' = self w.
Proof.
  intros Hlatest Hstamped w'. split; [|apply save_image_self].
  subst w'. destruct (Image_open E image) as [img0|e] eqn:Hopen.
  - rewrite (save_image_decoded E image response targets confidence directory
               camera_entity w img0 Hopen). cbv zeta.
    destruct (save_ok E (latest_path _ _)); [|reflexivity].
    destruct (_save_timestamped_file (self w)).
    + destruct Hstamped as [Hoff|Hne]; [discriminate|].
      destruct (save_ok E (timestamp_path _ _ _));
        cbn [snd files logger with_files].
      * rewrite !lookup_insert_ne by congruence. reflexivity.
      * rewrite lookup_insert_ne by congruence. reflexivity.
    + cbn [snd files with_files]. rewrite lookup_insert_ne by congruence.
      reflexivity.
  - unfold save_image. rewrite Hopen. destruct e; reflexivity.
Qed.

Lemma save_image_frame_witness :
  files (snd (save_image (sample_env (Return person_response) (Return sample_image))
                [] person_response ["person"] 80 "/tmp" "Front Door"
                (sample_world detected_entity)))
  !! ("/tmp", "other.jpg") = None.
Proof.
  refine (proj1 (save_image_frame
            (sample_env (Return person_response) (Return sample_image))
            [] person_response ["person"] 80 "/tmp" "Front Door"
            (sample_world detected_entity) ("/tmp", "other.jpg") _ _)).
  - vm_compute. discriminate.
  - right. vm_compute. discriminate.
Defined.

(** ** Setup: retries, errors and the entities created *)

Lemma after_KeyErrors_counts (k : nat) (retries : Z) (st : setup_state) :
  attempts (after_KeyErrors k retries st) = (attempts st + k)%nat
  /\ slept (after_KeyErrors k retries st) = (slept st + Z.of_nat k)%Z.
Proof.
  revert retries st. induction k as [|k IH]; intros retries st;
    cbn [after_KeyErrors].
  - split; lia.
  - destruct (IH (retries + 1)%Z
                (time_sleep 1
                   (setup_logger INFO
                      ("boto3 client failed, retries=" ++ PyStr.str_of_Z retries)
                      (count_attempt st)))) as [Ha Hs].
    rewrite Ha, Hs. cbn [attempts slept time_sleep setup_logger count_attempt].
    split; lia.
Qed.

Lemma retry_loop_after_KeyErrors (E : setup_env) (aws : aws_config)
    (max_retries : Z) (k : nat) :
  forall (retries : Z) (st : setup_state),
    (forall n, (n < k)%nat -> boto3_client E aws (attempts st + n) = Raise KeyError) ->
    (retries + Z.of_nat k <= max_retries + 1)%Z ->
    retry_loop E aws max_retries retries st
    = retry_loop E aws max_retries (retries + Z.of_nat k)
        (after_KeyErrors k retries st).
Proof.
  induction k as [|k IH]; intros retries st Hfail Hk; cbn [after_KeyErrors].
  - f_equal. lia.
  - rewrite retry_loop_step by lia.
    pose proof (Hfail 0%nat ltac:(lia)) as H0.
    rewrite Nat.add_0_r in H0. rewrite H0.
    rewrite IH.
    + f_equal. lia.
    + intros n Hn. cbn [attempts time_sleep setup_logger count_attempt].
      rewrite <- (Hfail (S n)) by lia. f_equal. lia.
    + lia.
Qed.

Lemma lowered_targets (targets : list string) :
  Forall (fun t => PyStr.lower t = t) (map PyStr.lower targets).
Proof.
  induction targets as [|t targets IH]; cbn [map]; constructor;
    [apply lower_idempotent | exact IH].
Qed.

Lemma ObjectDetection_init_fields split client_ region targets confidence
    save_file_folder save_timestamped_file camera_entity name o :
  ObjectDetection_init split client_ region targets confidence save_file_folder
    save_timestamped_file camera_entity name = Return o ->
  _client o = client_ /\ _region o = region /\ _targets o = targets
  /\ _targets_found o = repeat 0%Z (length targets)
  /\ _confidence o = confidence /\ _save_file_folder o = save_file_folder
  /\ _save_timestamped_file o = save_timestamped_file
  /\ _camera_entity o = camera_entity.
Proof.
  unfold ObjectDetection_init. intros H.
  destruct name as [[|c r]|]; [| |];
    first [ injection H as <-; repeat split
          | destruct (entity_name_of split camera_entity);
            [injection H as <-; repeat split | discriminate] ].
Qed.

Lemma build_entities_spec (split : string -> result (list string))
    (cfg : config) (c : client) (folder : option string) (source : list camera) :
  match build_entities
          (fun cam =>
             ObjectDetection_init split c (CONF_REGION cfg)
               (map PyStr.lower (CONF_TARGETS cfg)) (ATTR_CONFIDENCE cfg) folder
               (CONF_SAVE_TIMESTAMPTED_FILE cfg) (CONF_ENTITY_ID cam) (CONF_NAME cam))
          source with
  | Return ents => Forall2 (configured_for cfg c) source ents
  | Raise e =>
      exists cam, In cam source /\ unnamed cam
                  /\ entity_name_of split (CONF_ENTITY_ID cam) = Raise e
  end.
Proof.
  induction source as [|cam source IH]; cbn [build_entities]; [constructor|].
  destruct (ObjectDetection_init _ _ _ _ _ _ _ _ _) as [o|e] eqn:Hinit.
  - destruct (build_entities _ source) as [ents|e].
    + constructor; [|exact IH].
      destruct (ObjectDetection_init_fields _ _ _ _ _ _ _ _ _ _ Hinit)
        as (? & ? & Ht & Hf & ? & ? & ? & ?).
      destruct (ObjectDetection_init_fresh _ _ _ _ _ _ _ _ _ _ Hinit) as (? & ? & ?).
      constructor; try assumption.
      * rewrite Ht. apply lowered_targets.
      * rewrite Hf, length_map. reflexivity.
    + destruct IH as (cam' & Hin & Hun & Hname).
      exists cam'. split; [right; exact Hin | auto].
  - exists cam. split; [left; reflexivity|].
    unfold ObjectDetection_init in Hinit. unfold unnamed.
    destruct (CONF_NAME cam) as [[|ch r]|]; [| discriminate |];
      (destruct (entity_name_of split (CONF_ENTITY_ID cam)) as [n|e'];
       [discriminate | injection Hinit as ->; auto]).
Qed.

Lemma retry_loop_from_start (E : setup_env) (cfg : config) (k : nat) :
  (Z.of_nat k <= CONF_BOTO_RETRIES cfg)%Z ->
  (forall n, (n < k)%nat -> boto3_client E (aws_of cfg) n = Raise KeyError) ->
  let st := after_KeyErrors k 0 (setup_start cfg) in
  attempts st = k /\ slept st = Z.of_nat k
  /\ retry_loop E (aws_of cfg) (CONF_BOTO_RETRIES cfg) 0 (setup_start cfg)
     = match boto3_client E (aws_of cfg) k with
       | Return c => (LoopDone (Some c) (Z.of_nat k), count_attempt st)
       | Raise KeyError =>
           retry_loop E (aws_of cfg) (CONF_BOTO_RETRIES cfg) (Z.of_nat k + 1)
             (time_sleep 1
                (setup_logger INFO
                   ("boto3 client failed, retries=" ++ PyStr.str_of_Z (Z.of_nat k))
                   (count_attempt st)))
       | Raise e => (LoopRaised e, count_attempt st)
       end.
Proof.
  intros Hk Hfail st.
  destruct (after_KeyErrors_counts k 0 (setup_start cfg)) as [Ha Hs].
  fold st in Ha, Hs. cbn in Ha, Hs.
  split; [exact Ha|]. split; [lia|].
  rewrite (retry_loop_after_KeyErrors E (aws_of cfg) (CONF_BOTO_RETRIES cfg) k)
    by (cbn; auto; lia).
  fold st. rewrite retry_loop_step by lia.
  rewrite Ha. reflexivity.
Qed.

Lemma setup_platform_unfold (E : setup_env) (cfg : config) :
  setup_platform E cfg setup_init
  = match retry_loop E (aws_of cfg) (CONF_BOTO_RETRIES cfg) 0 (setup_start cfg) with
    | (LoopRaised e, st) => (Raise e, st)
    | (LoopDone None retries, st) => (Raise (PyException (failed_message retries)), st)
    | (LoopDone (Some c) _, st) =>
        (build_entities
           (fun cam =>
              ObjectDetection_init (split_entity_id E) c (CONF_REGION cfg)
                (map PyStr.lower (CONF_TARGETS cfg)) (ATTR_CONFIDENCE cfg)
                match CONF_SAVE_FILE_FOLDER cfg with
                | Some (String ch r) => Some (String ch r)
                | _ => None
                end
                (CONF_SAVE_TIMESTAMPTED_FILE cfg) (CONF_ENTITY_ID cam) (CONF_NAME cam))
           (CONF_SOURCE cfg), st)
    end.
Proof.
  unfold setup_platform, bind, modify, raise, lift_result.
  fold (aws_of cfg). fold (setup_start cfg).
  destruct (retry_loop _ _ _ _ _) as [[[c|] retries|e] st]; reflexivity.
Qed.

(** X14.  If the first [k] calls of the client constructor raise [KeyError]
    and the next one returns a client, with [k] at most the maximum retry
    count, then [setup_platform] makes exactly [k + 1] calls and sleeps [k]
    seconds; it then either hands over one entity per camera, in order,
    each holding that client, the lowercased targets, the configured
    threshold and an empty detection state, or raises what
    [split_entity_id(...)[1]] raises for a camera without a usable name. *)
Theorem setup_platform_succeeds_after_retries
    (E : setup_env) (cfg : config) (k : nat) (c : client) :
  (Z.of_nat k <= CONF_BOTO_RETRIES cfg)%Z ->
  (forall n, (n < k)%nat -> boto3_client E (aws_of cfg) n = Raise KeyError) ->
  boto3_client E (aws_of cfg) k = Return c ->
  exists r st',
    setup_platform E cfg setup_init = (r, st')
    /\ attempts st' = S k /\ slept st' = Z.of_nat k
    /\ match r with
       | Return ents => Forall2 (configured_for cfg c) (CONF_SOURCE cfg) ents
       | Raise e =>
           exists cam, In cam (CONF_SOURCE cfg) /\ unnamed cam
                       /\ entity_name_of (split_entity_id E) (CONF_ENTITY_ID cam)
                          = Raise e
       end.
Proof.
  intros Hk Hfail Hok.
  destruct (retry_loop_from_start E cfg k Hk Hfail) as (Ha & Hs & Hrun).
  cbv zeta in *. rewrite setup_platform_unfold, Hrun, Hok.
  eexists _, _. split; [reflexivity|].
  cbn [attempts slept count_attempt]. rewrite Ha, Hs.
  split; [reflexivity|]. split; [reflexivity|].
  apply build_entities_spec.
Qed.

Lemma setup_platform_succeeds_after_retries_witness :
  exists r st',
    setup_platform (flaky_client 2) (sample_config 2) setup_init = (r, st')
    /\ attempts st' = 3%nat /\ slept st' = 2%Z
    /\ match r with
       | Return ents =>
           Forall2 (configured_for (sample_config 2) 7%nat)
             (CONF_SOURCE (sample_config 2)) ents
       | Raise e =>
           exists cam, In cam (CONF_SOURCE (sample_config 2)) /\ unnamed cam
                       /\ entity_name_of (split_entity_id (flaky_client 2))
                            (CONF_ENTITY_ID cam) = Raise e
       end.
Proof.
  apply (setup_platform_succeeds_after_retries (flaky_client 2) (sample_config 2)
           2%nat 7%nat).
  - cbn. lia.
  - intros n Hn. unfold flaky_client. cbn [boto3_client].
    apply Nat.ltb_lt in Hn. rewrite Hn. reflexivity.
  - reflexivity.
Defined.

(** X15.  If the first [k] calls of the client constructor raise [KeyError]
    and the next one raises another exception, with [k] at most the maximum
    retry count, then that exception leaves [setup_platform] after exactly
    [k + 1] calls and [k] seconds of sleep: it is neither retried nor
    replaced by the "Failed to create boto3 client" exception. *)
Theorem setup_platform_propagates_other_error
    (E : setup_env) (cfg : config) (k : nat) (e : exn) :
  (Z.of_nat k <= CONF_BOTO_RETRIES cfg)%Z ->
  (forall n, (n < k)%nat -> boto3_client E (aws_of cfg) n = Raise KeyError) ->
  boto3_client E (aws_of cfg) k = Raise e ->
  e <> KeyError ->
  exists st',
    setup_platform E cfg setup_init = (Raise e, st')
    /\ attempts st' = S k /\ slept st' = Z.of_nat k.
Proof.
  intros Hk Hfail Herr Hne.
  destruct (retry_loop_from_start E cfg k Hk Hfail) as (Ha & Hs & Hrun).
  cbv zeta in *. rewrite setup_platform_unfold, Hrun, Herr.
  destruct e; try contradiction;
    (eexists; split; [reflexivity|];
     cbn [attempts slept count_attempt]; rewrite Ha, Hs; split; reflexivity).
Qed.

Lemma setup_platform_propagates_other_error_witness :
  exists st',
    setup_platform (failing_client 1 (OtherError "NoRegionError"))
      (sample_config 5) setup_init
    = (Raise (OtherError "NoRegionError"), st')
    /\ attempts st' = 2%nat /\ slept st' = 1%Z.
Proof.
  apply (setup_platform_propagates_other_error
           (failing_client 1 (OtherError "NoRegionError")) (sample_config 5)
           1%nat (OtherError "NoRegionError")).
  - cbn. lia.
  - intros n Hn. unfold failing_client. cbn [boto3_client].
    apply Nat.ltb_lt in Hn. rewrite Hn. reflexivity.
  - reflexivity.
  - discriminate.
Defined.

(** X16.  The name of an entity: a configured non-empty name is taken as it
    is, without a call of [split_entity_id]; without one (no name, or the
    empty name) the name is "rekognition_" followed by the second item of
    what [split_entity_id] returns for the camera's entity id; an exception
    of [split_entity_id] leaves the constructor, and a result with fewer
    than two items gives [IndexError]. *)
Theorem ObjectDetection_init_name
    (split : string -> result (list string))
    (c : client) (region : string) (targets : list string) (confidence : Q)
    (folder : option string) (timestamped : bool) (camera_entity : string) :
  (forall ch r,
     exists o,
       ObjectDetection_init split c region targets confidence folder timestamped
         camera_entity (Some (String ch r)) = Return o
       /\ _name o = String ch r)
  /\ (forall name,
        name = None \/ name = Some "" ->
        match split camera_entity with
        | Return (domain :: object_id :: _) =>
            exists o,
              ObjectDetection_init split c region targets confidence folder
                timestamped camera_entity name = Return o
              /\ _name o = "rekognition_" ++ object_id
        | Return _ =>
            ObjectDetection_init split c region targets confidence folder
              timestamped camera_entity name = Raise IndexError
        | Raise e =>
            ObjectDetection_init split c region targets confidence folder
              timestamped camera_entity name = Raise e
        end).
Proof.
  split.
  - intros ch r. eexists. split; reflexivity.
  - intros name [-> | ->]; unfold ObjectDetection_init, entity_name_of;
      (destruct (split camera_entity) as [[|domain [|object_id rest]]|e];
       cbn [item_1]; first [reflexivity | eexists; split; reflexivity]).
Qed.

Lemma ObjectDetection_init_name_witness :
  exists o,
    ObjectDetection_init sample_split 0%nat "us-east-1" ["person"] 80 None false
      "camera.front.door" None = Return o
    /\ _name o = "rekognition_front.door".
Proof.
  destruct (ObjectDetection_init_name sample_split 0%nat "us-east-1" ["person"]
              80 None false "camera.front.door") as [_ Hname].
  exact (Hname None (or_introl eq_refl)).
Defined.

(** ** Counting and annotating agree on lowercased targets *)

Lemma lowercase_target_member (targets : list string) (label : Label) :
  Forall (fun t => PyStr.lower t = t) targets ->
  (PyStr.lower (Name label) ∈ targets
   <-> Exists (fun t => name_matches t label) targets).
Proof.
  intros Hlow. rewrite Exists_exists. unfold name_matches.
  rewrite Forall_forall in Hlow. split.
  - intros Hin. exists (PyStr.lower (Name label)). split; [exact Hin|].
    symmetry. apply Hlow, Hin.
  - intros (t & Hin & Heq). rewrite Heq, (Hlow t Hin). exact Hin.
Qed.

(** X18.  With lowercased targets, as [setup_platform] makes them, a label
    that matches some target up to case, as the counter matches it, and
    whose confidence is not below the threshold gets a box for every one of
    its instances. *)
Theorem matched_label_is_annotated
    (targets : list string) (confidence : Q) (img : PILImage) (label : Label)
    (target : string) :
  Forall (fun t => PyStr.lower t = t) targets ->
  In target targets ->
  name_matches target label ->
  (confidence <= Confidence label)%Q ->
  drawn (draw_label targets confidence img label)
  = (drawn img
     ++ map (box_of (width img) (height img) label) (Instances label))%list.
Proof.
  intros Hlow Hin Hm Hc.
  destruct (draw_label_spec targets confidence img label) as (_ & _ & _ & Hd).
  cbv zeta in Hd. rewrite Hd. unfold boxes_of_label.
  rewrite decide_True; [reflexivity|]. split; [exact Hc|].
  apply lowercase_target_member; [exact Hlow|].
  apply Exists_exists. exists target.
  split; [apply list_elem_of_In; exact Hin | exact Hm].
Qed.

Lemma matched_label_is_annotated_witness :
  length (drawn (draw_label ["person"] 80 sample_image
                   {| Name := "PERSON"; Confidence := 80;
                      Instances := [sample_instance 10; sample_instance 99] |}))
  = 2%nat.
Proof.
  rewrite (matched_label_is_annotated ["person"] 80 sample_image
             {| Name := "PERSON"; Confidence := 80;
                Instances := [sample_instance 10; sample_instance 99] |}
             "person").
  - reflexivity.
  - repeat constructor.
  - left. reflexivity.
  - vm_compute. reflexivity.
  - vm_compute. discriminate.
Defined.

(** ** Invariants over the life of an entity *)

Lemma step_configuration (w : world) (c : call) :
  configuration (self (step w c)) = configuration (self w).
Proof.
  destruct c as [E image|]; cbn [step].
  - destruct (detect_labels E (_client (self w)) image) as [response|e] eqn:Hd.
    + rewrite (process_image_self_detected E image w response Hd). reflexivity.
    + rewrite (process_image_raised E image w e Hd). reflexivity.
  - unfold device_state_attributes. run_monad. reflexivity.
Qed.

(** X19.  No sequence of [process_image] calls and attribute readings
    changes the configuration of an entity: client, region, targets,
    threshold, save folder, timestamped option, camera and name stay as the
    constructor set them. *)
Theorem run_preserves_configuration (calls : list call) (w : world) :
  let o := self w in
  let o' := self (run calls w) in
  _client o' = _client o /\ _region o' = _region o
  /\ _targets o' = _targets o /\ _confidence o' = _confidence o
  /\ _save_file_folder o' = _save_file_folder o
  /\ _save_timestamped_file o' = _save_timestamped_file o
  /\ _camera_entity o' = _camera_entity o /\ _name o' = _name o.
Proof.
  cbv zeta.
  assert (H : configuration (self (run calls w)) = configuration (self w)).
  { revert w. induction calls as [|c calls IH]; intros w; [reflexivity|].
    change (run (c :: calls) w) with (run calls (step w c)).
    rewrite IH. apply step_configuration. }
  unfold configuration in H. injection H as -> -> -> -> -> -> -> ->.
  repeat split.
Qed.

Lemma step_state_consistent (w : world) (c : call) :
  state_consistent (self w) -> state_consistent (self (step w c)).
Proof.
  intros Hinv. destruct c as [E image|]; cbn [step].
  - destruct (detect_labels E (_client (self w)) image) as [response|e] eqn:Hd.
    + rewrite (process_image_self_detected E image w response Hd).
      unfold state_consistent. cbn [after_detection _state _last_detection].
      pose proof (proj1 (sum_counts_zero response (_confidence (self w))
                           (_targets (self w)))) as Hge.
      rewrite <- total_found_sum in Hge. split; [exact Hge|].
      intros Hpos. apply Z.ltb_lt in Hpos. rewrite Hpos. eauto.
    + rewrite (process_image_raised E image w e Hd). exact I.
  - unfold device_state_attributes. run_monad. exact Hinv.
Qed.

(** X20.  From an entity as the constructor leaves it, after any sequence of
    calls the state is either [None] or a number that is not negative, and
    whenever it is positive the last-detection timestamp is set. *)
Theorem run_state_consistent
    (split : string -> result (list string))
    (client_ : client) (region : string) (targets : list string)
    (confidence : Q) (save_file_folder : option string)
    (save_timestamped_file : bool) (camera_entity : string)
    (name : option string) (o : ObjectDetection)
    (fs : gmap path PILImage) (lg : list log_record) (calls : list call) :
  ObjectDetection_init split client_ region targets confidence save_file_folder
    save_timestamped_file camera_entity name = Return o ->
  let o' := self (run calls {| self := o; files := fs; log := lg |}) in
  _state o' = None
  \/ exists n, _state o' = Some n /\ (0 <= n)%Z
               /\ ((0 < n)%Z -> is_Some (_last_detection o')).
Proof.
  intros Hinit o'.
  assert (Hinv : state_consistent o').
  { subst o'.
    assert (H0 : state_consistent (self {| self := o; files := fs; log := lg |})).
    { destruct (ObjectDetection_init_fresh _ _ _ _ _ _ _ _ _ _ Hinit) as (_ & Hs & _).
      unfold state_consistent. cbn [self]. rewrite Hs. exact I. }
    revert H0. generalize {| self := o; files := fs; log := lg |}.
    induction calls as [|c calls IH]; intros w Hw; [exact Hw|].
    change (run (c :: calls) w) with (run calls (step w c)).
    apply IH, step_state_consistent, Hw. }
  unfold state_consistent in Hinv.
  destruct (_state o') as [n|]; [right | left; reflexivity].
  exists n. split; [reflexivity | exact Hinv].
Qed.

Lemma run_state_consistent_witness :
  let o' := self (run sample_calls (sample_world fresh_entity)) in
  _state o' = None
  \/ exists n, _state o' = Some n /\ (0 <= n)%Z
               /\ ((0 < n)%Z -> is_Some (_last_detection o')).
Proof.
  exact (run_state_consistent sample_split 0%nat DEFAULT_REGION ["person"] 80 None false
           "camera.front" None fresh_entity ∅ [] sample_calls eq_refl).
Defined.

Lemma step_keeps_files (w : world) (c : call) (p : path) :
  is_Some (files w !! p) -> is_Some (files (step w c) !! p).
Proof.
  intros Hp. destruct c as [E image|]; cbn [step].
  - destruct (detect_labels E (_client (self w)) image) as [response|e] eqn:Hd.
    + rewrite (process_image_detected E image w response Hd). cbv zeta.
      destruct (_save_file_folder _) as [directory|]; [|exact Hp].
      destruct (0 <? _)%Z; [|exact Hp].
      destruct (Image_open E image) as [img0|e] eqn:Hopen.
      * rewrite (save_image_decoded E image response _ _ directory _ _ img0 Hopen).
        cbv zeta.
        destruct (save_ok E (latest_path _ _)); [|exact Hp].
        destruct (_save_timestamped_file _);
          [destruct (save_ok E (timestamp_path _ _ _))|];
          cbn [snd files logger with_files];
          rewrite ?lookup_insert_is_Some'; auto.
      * unfold save_image. rewrite Hopen. destruct e; exact Hp.
    + rewrite (process_image_raised E image w e Hd). exact Hp.
  - unfold device_state_attributes. run_monad. exact Hp.
Qed.

(** X21.  No call ever removes a file: a path that holds a file keeps
    holding one (possibly a newer image) after any sequence of calls. *)
Theorem run_never_removes_files (calls : list call) (w : world) (p : path) :
  is_Some (files w !! p) -> is_Some (files (run calls w) !! p).
Proof.
  revert w. induction calls as [|c calls IH]; intros w Hp; [exact Hp|].
  change (run (c :: calls) w) with (run calls (step w c)).
  apply IH, step_keeps_files, Hp.
Qed.

Lemma run_never_removes_files_witness :
  is_Some
    (files (run sample_calls
              {| self := detected_entity;
                 files := {[ ("/tmp", "old.jpg") := sample_image ]};
                 log := [] |})
     !! ("/tmp", "old.jpg")).
Proof.
  apply (run_never_removes_files sample_calls
           {| self := detected_entity;
              files := {[ ("/tmp", "old.jpg") := sample_image ]};
              log := [] |} ("/tmp", "old.jpg")).
  cbn [files]. rewrite lookup_singleton_eq. eauto.
Defined.
